(** * kube-endpoint-manager: the reconcile loop and its two adapters

    A shallow embedding of [kube_endpoint_manager] (modules [openstack],
    [external], [kubernetes] and [__main__]) and the properties of its
    reconcile loop.

    Conventions.
    - A Python [dict] whose iteration order the code relies on is an
      association list, in iteration order.
    - A method that only reads [self] is a function of the fields it reads.
    - A method that talks to a collaborator runs in the monad [M] below: it
      threads the collaborators' state, may raise, and emits the API calls and
      log lines it performs. *)

From Stdlib Require Import List String Ascii Bool Arith Lia Permutation.
Import ListNotations.
Open Scope string_scope.
Open Scope list_scope.

(** ** Python values *)

Module py.

(** Truth value of a [str]: non-empty. *)
Definition truthy (s : string) : bool := negb (String.eqb s "").

(** [x or d] for [x : Optional[str]]. *)
Definition or_else (x : option string) (d : string) : string :=
  match x with
  | Some s => if truthy s then s else d
  | None => d
  end.

(** [k in d] and [d[k]] on a dict with [str] keys. *)
Fixpoint contains {V : Type} (k : string) (d : list (string * V)) : bool :=
  match d with
  | [] => false
  | (k', _) :: rest => String.eqb k k' || contains k rest
  end.

Fixpoint getitem {V : Type} (k : string) (d : list (string * V)) : option V :=
  match d with
  | [] => None
  | (k', v) :: rest => if String.eqb k k' then Some v else getitem k rest
  end.

(** [d.values()] *)
Definition values {V : Type} (d : list (string * V)) : list V := map snd d.

(** The exceptions the program can meet. *)
Inductive exn : Type :=
| ApiException (status : nat)   (* kubernetes.client.rest.ApiException *)
| TypeError                     (* subscripting or iterating None *)
| IndexError                    (* [][0] *)
| AttributeError                (* None.subsets *)
| OtherError (what : string).   (* anything else a client library raises *)

Inductive result (A : Type) : Type :=
| Ok (a : A)
| Raise (e : exn).
Arguments Ok {A} a.
Arguments Raise {A} e.

Definition is_api_exception (e : exn) : bool :=
  match e with ApiException _ => true | _ => false end.

End py.

(** ** The fragment of Python's [re] the program's patterns use

    A pattern is kept as its syntax tree; [re.compile] is not modelled.
    [re.match] anchors at the start of the string and accepts any prefix. *)

Module re.

Definition newline : ascii := "010"%char.

Inductive regex : Type :=
| Empty
| Chr (c : ascii)
| AnyChar                 (* [.]: any character but a newline *)
| Bol                     (* [^] *)
| Eol                     (* [$]: at the end, or before a final newline *)
| Cat (r1 r2 : regex)
| Alt (r1 r2 : regex)
| Star (r : regex).

(** [accept r bos s k]: some way of matching [r] at the head of [s] leaves
    a rest that [k] accepts; [bos] tells whether [s] is the whole subject. *)
Fixpoint accept (r : regex) (bos : bool) (s : string)
         (k : bool -> string -> bool) {struct r} : bool :=
  match r with
  | Empty => k bos s
  | Chr c =>
      match s with
      | String c' s' => Ascii.eqb c c' && k false s'
      | EmptyString => false
      end
  | AnyChar =>
      match s with
      | String c' s' => negb (Ascii.eqb c' newline) && k false s'
      | EmptyString => false
      end
  | Bol => bos && k bos s
  | Eol =>
      (String.eqb s EmptyString || String.eqb s (String newline EmptyString))
      && k bos s
  | Cat r1 r2 => accept r1 bos s (fun b t => accept r2 b t k)
  | Alt r1 r2 => accept r1 bos s k || accept r2 bos s k
  | Star r1 =>
      (fix iter (fuel : nat) (b : bool) (t : string) {struct fuel} : bool :=
         k b t ||
         match fuel with
         | O => false
         | S fuel' =>
             accept r1 b t
               (fun b' t' =>
                  Nat.ltb (String.length t') (String.length t) && iter fuel' b' t')
         end) (String.length s) bos s
  end.

(** [bool(re.match(pattern, string))] *)
Definition match_ (pattern : regex) (s : string) : bool :=
  accept pattern true s (fun _ _ => true).

(** A literal run of characters. *)
Fixpoint lit (s : string) : regex :=
  match s with
  | EmptyString => Empty
  | String c s' => Cat (Chr c) (lit s')
  end.

(** [.*] *)
Definition any_run : regex := Star AnyChar.

End re.

(** ** Library models of the Kubernetes client *)

Module models.

(** Modelled from the spec: [V1EndpointAddress] of the Kubernetes client
    library, the normalized Address of the data model: hostname, node name
    and an optional ip, compared structurally. *)
Record V1EndpointAddress : Type := {
  hostname : string;
  node_name : string;
  ip : option string
}.

(** Modelled from the spec: [V1EndpointPort], a port spec the program only
    carries over. *)
Record V1EndpointPort : Type := {
  port_name : string;
  port : nat;
  protocol : string
}.

(** Modelled from the spec: [V1EndpointSubset]; the client leaves a field
    the server omitted as [None]. *)
Record V1EndpointSubset : Type := {
  addresses : option (list V1EndpointAddress);
  ports : option (list V1EndpointPort)
}.

Record V1ObjectMeta : Type := {
  name : string;
  namespace : string
}.

(** Modelled from the spec: [V1Endpoints]; [subsets] is [None] when the
    resource has none. *)
Record V1Endpoints : Type := {
  metadata : V1ObjectMeta;
  subsets : option (list V1EndpointSubset)
}.

Definition option_eqb {A : Type} (eqb : A -> A -> bool) (x y : option A) : bool :=
  match x, y with
  | Some a, Some b => eqb a b
  | None, None => true
  | _, _ => false
  end.

(** [V1EndpointAddress.__eq__] *)
Definition address_eqb (a b : V1EndpointAddress) : bool :=
  String.eqb (hostname a) (hostname b)
  && String.eqb (node_name a) (node_name b)
  && option_eqb String.eqb (ip a) (ip b).

(** [==] on Python lists: same length, equal element by element. *)
Fixpoint list_eqb (l1 l2 : list V1EndpointAddress) : bool :=
  match l1, l2 with
  | [], [] => true
  | a :: l1', b :: l2' => address_eqb a b && list_eqb l1' l2'
  | _, _ => false
  end.

End models.

(** ** Library model of the OpenStack SDK *)

Module sdk.

(** Modelled from the spec: one entry of [OpenStackServer.addresses[NET]],
    the pair of an ip version and an ip; [version] is the entry's ['version']
    after [str()], [addr] its ['addr'] after [str()]. *)
Record address : Type := {
  version : string;
  addr : string
}.

(** Modelled from the spec: the ExternalInstance of the data model, the
    part of [OpenStackServer] the program reads. Both dicts are kept in
    iteration order. *)
Record Server : Type := {
  name : string;
  compute_host : string;
  metadata : list (string * string);
  addresses : list (string * list address)
}.

End sdk.

(** ** Library model of [deepdiff] *)

Module deepdiff.

(** Modelled from the spec: [DeepDiff(t1, t2).to_dict()] on two address
    lists, a structural element-wise difference: per index the attributes
    that changed, then the items one list has beyond the other. The report
    is empty exactly when nothing differs. *)
Inductive change : Type :=
| values_changed (index : nat) (attribute : string) (old_value new_value : string)
| type_changes (index : nat) (attribute : string) (old_value new_value : option string)
| iterable_item_added (index : nat) (item : models.V1EndpointAddress)
| iterable_item_removed (index : nat) (item : models.V1EndpointAddress).

Definition diff_str (i : nat) (attribute : string) (x y : string) : list change :=
  if String.eqb x y then [] else [values_changed i attribute x y].

Definition diff_optional (i : nat) (attribute : string) (x y : option string)
  : list change :=
  match x, y with
  | Some a, Some b => diff_str i attribute a b
  | None, None => []
  | _, _ => [type_changes i attribute x y]
  end.

Definition diff_item (i : nat) (a b : models.V1EndpointAddress) : list change :=
  diff_str i "hostname" (models.hostname a) (models.hostname b)
  ++ diff_str i "node_name" (models.node_name a) (models.node_name b)
  ++ diff_optional i "ip" (models.ip a) (models.ip b).

Fixpoint added_from (i : nat) (l : list models.V1EndpointAddress) : list change :=
  match l with
  | [] => []
  | b :: l' => iterable_item_added i b :: added_from (S i) l'
  end.

Fixpoint removed_from (i : nat) (l : list models.V1EndpointAddress) : list change :=
  match l with
  | [] => []
  | a :: l' => iterable_item_removed i a :: removed_from (S i) l'
  end.

Fixpoint diff_from (i : nat) (t1 t2 : list models.V1EndpointAddress) : list change :=
  match t1, t2 with
  | [], _ => added_from i t2
  | _, [] => removed_from i t1
  | a :: t1', b :: t2' => diff_item i a b ++ diff_from (S i) t1' t2'
  end.

Definition DeepDiff (t1 t2 : list models.V1EndpointAddress) : list change :=
  diff_from 0 t1 t2.

End deepdiff.

(** ** The collaborators and the effects of the program *)

Module api.

(** Modelled from the spec: the two collaborators of section 6. The cluster
    holds at most one Endpoints resource under the configured name and
    namespace; a read of a missing resource raises the API exception with
    status 404; a call may fail with any exception ([read_fault],
    [patch_fault]); an accepted patch replaces the subsets. The provider
    lists its servers or raises. *)
Record world : Type := {
  resource : option models.V1Endpoints;
  read_fault : option py.exn;
  patch_fault : option py.exn;
  servers : py.result (list sdk.Server)
}.

Definition set_resource (w : world) (r : option models.V1Endpoints) : world :=
  {| resource := r;
     read_fault := read_fault w;
     patch_fault := patch_fault w;
     servers := servers w |}.

(** The [log.info] calls of [sync_loop], in source order. *)
Inductive log_message : Type :=
| Starting_sync_loop
| Searching_for_kubernetes_endpoints
| Kubernetes_endpoints_fetched (addresses : list models.V1EndpointAddress)
| Searching_for_external_endpoints
| External_endpoint_fetched (addresses : list models.V1EndpointAddress)
| Skipping_empty_kubernetes_endpoints
| Skipping_empty_external_endpoints
| Detected_different_state (diff : option (list deepdiff.change))
| Kubernetes_endpoint_state_updated (addresses : list models.V1EndpointAddress)
| In_sync.

(** What the program does to the outside. *)
Inductive event : Type :=
| read_call (name namespace : string)
| patch_call (name namespace : option string)
             (body : list models.V1EndpointSubset) (field_manager : string)
| servers_call
| sleep_call
| log_info (m : log_message).

Definition is_patch (e : event) : bool :=
  match e with patch_call _ _ _ _ => true | _ => false end.

(** State of the collaborators, exceptions, and the events emitted. *)
Definition M (A : Type) : Type := world -> py.result A * world * list event.

Definition ret {A : Type} (a : A) : M A := fun w => (py.Ok a, w, []).

Definition raise {A : Type} (e : py.exn) : M A := fun w => (py.Raise e, w, []).

Definition bind {A B : Type} (m : M A) (k : A -> M B) : M B :=
  fun w =>
    match m w with
    | (py.Ok a, w1, evs1) =>
        match k a w1 with
        | (r, w2, evs2) => (r, w2, evs1 ++ evs2)
        end
    | (py.Raise e, w1, evs1) => (py.Raise e, w1, evs1)
    end.

(** [try: m  except <handled>: h] *)
Definition try_except {A : Type} (m : M A) (handled : py.exn -> bool) (h : M A)
  : M A :=
  fun w =>
    match m w with
    | (py.Ok a, w1, evs1) => (py.Ok a, w1, evs1)
    | (py.Raise e, w1, evs1) =>
        if handled e then
          match h w1 with
          | (r, w2, evs2) => (r, w2, evs1 ++ evs2)
          end
        else (py.Raise e, w1, evs1)
    end.

Definition lift {A : Type} (r : py.result A) : M A := fun w => (r, w, []).

Definition emit (e : event) : M unit := fun w => (py.Ok tt, w, [e]).

Definition info (m : log_message) : M unit := emit (log_info m).

(** [CoreV1Api.read_namespaced_endpoints] *)
Definition read_namespaced_endpoints (name namespace : string)
  : M models.V1Endpoints :=
  fun w =>
    let evs := [read_call name namespace] in
    match read_fault w with
    | Some e => (py.Raise e, w, evs)
    | None =>
        match resource w with
        | Some ep => (py.Ok ep, w, evs)
        | None => (py.Raise (py.ApiException 404), w, evs)
        end
    end.

(** [CoreV1Api.patch_namespaced_endpoints] *)
Definition patch_namespaced_endpoints (name namespace : option string)
           (body : list models.V1EndpointSubset) (field_manager : string)
  : M models.V1Endpoints :=
  fun w =>
    let evs := [patch_call name namespace body field_manager] in
    match patch_fault w with
    | Some e => (py.Raise e, w, evs)
    | None =>
        match resource w with
        | Some ep =>
            let ep' := {| models.metadata := models.metadata ep;
                          models.subsets := Some body |} in
            (py.Ok ep', set_resource w (Some ep'), evs)
        | None => (py.Raise (py.ApiException 404), w, evs)
        end
    end.

(** [compute.servers()], consumed to the end by the caller's loop. *)
Definition compute_servers : M (list sdk.Server) :=
  fun w => (servers w, w, [servers_call]).

(** [time.sleep(period)]: meanwhile the collaborators move on by [env]. *)
Definition sleep (env : world -> world) : M unit :=
  fun w => (py.Ok tt, env w, [sleep_call]).

(** Observations of a run. *)
Definition outcome {A : Type} (x : py.result A * world * list event) : py.result A :=
  fst (fst x).
Definition final {A : Type} (x : py.result A * world * list event) : world :=
  snd (fst x).
Definition events {A : Type} (x : py.result A * world * list event) : list event :=
  snd x.
Definition patches {A : Type} (x : py.result A * world * list event) : list event :=
  filter is_patch (events x).

End api.

Notation "x <- m ;; k" := (api.bind m (fun x => k))
  (at level 61, m at next level, right associativity).
Notation "m ;;; k" := (api.bind m (fun _ => k))
  (at level 61, right associativity).

(** ** [openstack.py] and [external.py]: the external inventory *)

Module openstack.

(** [r'.*endpoint.network.name$'] and [r'.*endpoint.network.version$'], as
    the source writes them: the dots are not escaped. *)
Definition network_name_key : re.regex :=
  re.Cat re.any_run
    (re.Cat (re.lit "endpoint")
       (re.Cat re.AnyChar
          (re.Cat (re.lit "network")
             (re.Cat re.AnyChar (re.Cat (re.lit "name") re.Eol))))).

Definition network_version_key : re.regex :=
  re.Cat re.any_run
    (re.Cat (re.lit "endpoint")
       (re.Cat re.AnyChar
          (re.Cat (re.lit "network")
             (re.Cat re.AnyChar (re.Cat (re.lit "version") re.Eol))))).

(** [for key, value in items: if pattern.match(key): return str(value)]
    then [return None]. *)
Fixpoint first_value (pattern : re.regex) (items : list (string * string))
  : option string :=
  match items with
  | [] => None
  | (key, value) :: rest =>
      if re.match_ pattern key then Some value else first_value pattern rest
  end.

Definition _metadata_network_name (server : sdk.Server) : option string :=
  first_value network_name_key (sdk.metadata server).

Definition _metadata_network_version (server : sdk.Server) : option string :=
  first_value network_version_key (sdk.metadata server).

(** [Endpoint._is_network_version], on [self._network_version]. *)
Definition _is_network_version (network_version : string) (a : sdk.address) : bool :=
  if negb (py.truthy network_version) then true
  else String.eqb network_version (sdk.version a).

(** [Endpoint._has_named_network] *)
Definition _has_named_network (server : sdk.Server) : bool :=
  match _metadata_network_name server with
  | None => false
  | Some n =>
      if negb (py.truthy n) then false
      else py.contains n (sdk.addresses server)
  end.

(** [for address in l: if self._is_network_version(address): return ...] *)
Fixpoint first_address (network_version : string) (l : list sdk.address)
  : option string :=
  match l with
  | [] => None
  | a :: rest =>
      if _is_network_version network_version a then Some (sdk.addr a)
      else first_address network_version rest
  end.

(** The nested loop over [self._server.addresses.values()]. *)
Fixpoint first_address_any (network_version : string) (nets : list (list sdk.address))
  : option string :=
  match nets with
  | [] => None
  | l :: rest =>
      match first_address network_version l with
      | Some a => Some a
      | None => first_address_any network_version rest
      end
  end.

(** [Endpoint._network_address]. The subscript
    [self._server.addresses[self._metadata_network_name]] is guarded by
    [_has_named_network], so its [KeyError] cannot happen. *)
Definition _network_address (server : sdk.Server) (network_version : string)
  : option string :=
  if _has_named_network server then
    match _metadata_network_name server with
    | Some n =>
        match py.getitem n (sdk.addresses server) with
        | Some l => first_address network_version l
        | None => None
        end
    | None => None
    end
  else first_address_any network_version (py.values (sdk.addresses server)).

(** The object [Endpoint(server)]. *)
Record Endpoint : Type := {
  _server : sdk.Server;
  _network_name : option string;
  _network_version : string;
  _address : option string
}.

(** [Endpoint.__init__] *)
Definition Endpoint_init (server : sdk.Server) : Endpoint :=
  let network_name := _metadata_network_name server in
  let network_version := py.or_else (_metadata_network_version server) "4" in
  {| _server := server;
     _network_name := network_name;
     _network_version := network_version;
     _address := _network_address server network_version |}.

(** [Endpoint.hostname], [Endpoint.nodename] and [Endpoint.address] *)
Definition hostname (e : Endpoint) : string := sdk.name (_server e).
Definition nodename (e : Endpoint) : string := sdk.compute_host (_server e).
Definition address (e : Endpoint) : option string := _address e.

(** [Endpoint.has_address]: [self.address is not None] *)
Definition has_address (e : Endpoint) : bool :=
  match address e with Some _ => true | None => false end.

(** The [filters] dict, one entry per key. A key [name] or [metadata] has a
    [_filter_server_<key>] method; any other key has none. *)
Inductive filter : Type :=
| filter_name (_filter : re.regex)
| filter_metadata (_filter : list (re.regex * re.regex))
| filter_other (key : string).

(** [Endpoints._filter_server_name] *)
Definition _filter_server_name (server : sdk.Server) (_filter : re.regex) : bool :=
  re.match_ _filter (sdk.name server).

(** The inner [__filter] of [_filter_server_metadata]: the loop over
    [server.metadata.items()] returns at the first key that matches. *)
Fixpoint __filter (items : list (string * string))
         (filter_key filter_value : re.regex) : bool :=
  match items with
  | [] => false
  | (meta_key, meta_value) :: rest =>
      if re.match_ filter_key meta_key then
        if negb (re.match_ filter_value meta_value) then false else true
      else __filter rest filter_key filter_value
  end.

(** [Endpoints._filter_server_metadata] *)
Fixpoint _filter_server_metadata (server : sdk.Server)
         (_filter : list (re.regex * re.regex)) : bool :=
  match _filter with
  | [] => true
  | (filter_key, filter_value) :: rest =>
      if negb (__filter (sdk.metadata server) filter_key filter_value) then false
      else _filter_server_metadata server rest
  end.

(** [Endpoints._is_endpoint_server] *)
Fixpoint _is_endpoint_server (filters : list filter) (server : sdk.Server) : bool :=
  match filters with
  | [] => true
  | filter_name value :: rest =>
      if negb (_filter_server_name server value) then false
      else _is_endpoint_server rest server
  | filter_metadata value :: rest =>
      if negb (_filter_server_metadata server value) then false
      else _is_endpoint_server rest server
  | filter_other _ :: rest => _is_endpoint_server rest server
  end.

(** The loop of [Endpoints._endpoint_list] over the servers the provider
    listed. *)
Fixpoint endpoint_list_of (filters : list filter) (servers : list sdk.Server)
  : list Endpoint :=
  match servers with
  | [] => []
  | server :: rest =>
      if _is_endpoint_server filters server then
        let endpoint := Endpoint_init server in
        if has_address endpoint then
          Endpoint_init server :: endpoint_list_of filters rest
        else endpoint_list_of filters rest
      else endpoint_list_of filters rest
  end.

(** The object [Endpoints(auth, filters)]. *)
Record Endpoints : Type := {
  _filters : list filter;
  _endpoints : list Endpoint
}.

Definition with_endpoints (self : Endpoints) (l : list Endpoint) : Endpoints :=
  {| _filters := _filters self; _endpoints := l |}.

(** [Endpoints._endpoint_list] *)
Definition _endpoint_list (self : Endpoints) : api.M (list Endpoint) :=
  servers <- api.compute_servers ;;
  api.ret (endpoint_list_of (_filters self) servers).

(** [Endpoints.__init__] *)
Definition Endpoints_init (filters : list filter) : api.M Endpoints :=
  let self := {| _filters := filters; _endpoints := [] |} in
  l <- _endpoint_list self ;;
  api.ret (with_endpoints self l).

(** [Endpoints.refresh] *)
Definition refresh (self : Endpoints) : api.M Endpoints :=
  l <- _endpoint_list self ;;
  api.ret (with_endpoints self l).

End openstack.

Module external.

(** [ABCEndpoints.addresses] *)
Fixpoint addresses_of (endpoints : list openstack.Endpoint)
  : list models.V1EndpointAddress :=
  match endpoints with
  | [] => []
  | endpoint :: rest =>
      {| models.hostname := openstack.hostname endpoint;
         models.node_name := openstack.nodename endpoint;
         models.ip := openstack.address endpoint |}
      :: addresses_of rest
  end.

Definition addresses (self : openstack.Endpoints) : list models.V1EndpointAddress :=
  addresses_of (openstack._endpoints self).

(** [ABCEndpoints.__bool__] *)
Definition __bool__ (self : openstack.Endpoints) : bool :=
  match addresses self with
  | [] => false
  | _ :: _ => true
  end.

End external.

(** ** [kubernetes.py]: the cluster endpoint store *)

Module kubernetes.

(** The object [Endpoint(name, namespace)]; [_endpoint] is the snapshot of
    the last read, [None] when the read found nothing. *)
Record Endpoint : Type := {
  _name : string;
  _namespace : string;
  _endpoint : option models.V1Endpoints
}.

Definition with_endpoint (self : Endpoint) (e : option models.V1Endpoints)
  : Endpoint :=
  {| _name := _name self; _namespace := _namespace self; _endpoint := e |}.

(** [Endpoint.__bool__] *)
Definition __bool__ (self : Endpoint) : bool :=
  match _endpoint self with
  | Some _ => true
  | None => false
  end.

(** [Endpoint._read_endpoint] *)
Definition _read_endpoint (self : Endpoint) : api.M (option models.V1Endpoints) :=
  api.try_except
    (ep <- api.read_namespaced_endpoints (_name self) (_namespace self) ;;
     api.ret (Some ep))
    py.is_api_exception
    (api.ret None).

(** [Endpoint.__init__] *)
Definition Endpoint_init (name namespace : string) : api.M Endpoint :=
  let self := {| _name := name; _namespace := namespace; _endpoint := None |} in
  ep <- _read_endpoint self ;;
  api.ret (with_endpoint self ep).

(** [Endpoint.name] and [Endpoint.namespace] *)
Definition name (self : Endpoint) : option string :=
  match _endpoint self with
  | None => None
  | Some ep => Some (models.name (models.metadata ep))
  end.

Definition namespace (self : Endpoint) : option string :=
  match _endpoint self with
  | None => None
  | Some ep => Some (models.namespace (models.metadata ep))
  end.

(** [x[0]] on a value that may be [None] *)
Definition subscript0 {A : Type} (x : option (list A)) : py.result A :=
  match x with
  | None => py.Raise py.TypeError
  | Some [] => py.Raise py.IndexError
  | Some (a :: _) => py.Ok a
  end.

(** [Endpoint.addresses], the getter *)
Definition addresses (self : Endpoint) : py.result (list models.V1EndpointAddress) :=
  match _endpoint self with
  | None => py.Ok []
  | Some ep =>
      match subscript0 (models.subsets ep) with
      | py.Raise e => py.Raise e
      | py.Ok subset =>
          match models.addresses subset with
          | None => py.Ok []
          | Some [] => py.Ok []
          | Some l => py.Ok l
          end
      end
  end.

(** [Endpoint.ports] *)
Definition ports (self : Endpoint) : py.result (list models.V1EndpointPort) :=
  match _endpoint self with
  | None => py.Raise py.AttributeError
  | Some ep =>
      match subscript0 (models.subsets ep) with
      | py.Raise e => py.Raise e
      | py.Ok subset =>
          match models.ports subset with
          | None => py.Raise py.TypeError
          | Some l => py.Ok l
          end
      end
  end.

(** [str(x)] of an [Optional[str]] inside an f-string *)
Definition str (x : option string) : string :=
  match x with Some s => s | None => "None" end.

(** [Endpoint._patch_addresses] *)
Definition _patch_addresses (self : Endpoint)
           (addresses : list models.V1EndpointAddress) : api.M models.V1Endpoints :=
  ports <- api.lift (ports self) ;;
  let body := [ {| models.addresses := Some addresses;
                   models.ports := Some ports |} ] in
  api.patch_namespaced_endpoints (name self) (namespace self) body
    ("kube-endpoint-manager-" ++ str (namespace self) ++ "-" ++ str (name self)).

(** [Endpoint.refresh] *)
Definition refresh (self : Endpoint) : api.M Endpoint :=
  ep <- _read_endpoint self ;;
  api.ret (with_endpoint self ep).

(** [Endpoint.diff]: [None] without a snapshot, else the report. *)
Definition diff (self : Endpoint) (candidate : list models.V1EndpointAddress)
  : py.result (option (list deepdiff.change)) :=
  match _endpoint self with
  | None => py.Ok None
  | Some _ =>
      match addresses self with
      | py.Raise e => py.Raise e
      | py.Ok current => py.Ok (Some (deepdiff.DeepDiff current candidate))
      end
  end.

(** Truth value of what [diff] returns: [None] and the empty dict are false. *)
Definition truthy (d : option (list deepdiff.change)) : bool :=
  match d with
  | None => false
  | Some [] => false
  | Some (_ :: _) => true
  end.

(** [Endpoint.addresses], the setter: the apply operation *)
Definition set_addresses (self : Endpoint) (value : list models.V1EndpointAddress)
  : api.M Endpoint :=
  if __bool__ self then
    d <- api.lift (diff self value) ;;
    if truthy d then
      _patch_addresses self value ;;;
      refresh self
    else api.ret self
  else api.ret self.

End kubernetes.

(** ** [__main__.py]: the reconcile loop *)

Module main.

(** One pass through the body of [while True], after the sleep. Each
    [continue] ends the pass. *)
Definition tick (kube_endpoint : kubernetes.Endpoint)
           (external_endpoints : openstack.Endpoints)
  : api.M (kubernetes.Endpoint * openstack.Endpoints) :=
  api.info api.Searching_for_kubernetes_endpoints ;;;
  kube_endpoint <- kubernetes.refresh kube_endpoint ;;
  fetched <- api.lift (kubernetes.addresses kube_endpoint) ;;
  api.info (api.Kubernetes_endpoints_fetched fetched) ;;;
  api.info api.Searching_for_external_endpoints ;;;
  external_endpoints <- openstack.refresh external_endpoints ;;
  api.info (api.External_endpoint_fetched (external.addresses external_endpoints)) ;;;
  if negb (kubernetes.__bool__ kube_endpoint) then
    api.info api.Skipping_empty_kubernetes_endpoints ;;;
    api.ret (kube_endpoint, external_endpoints)
  else if negb (external.__bool__ external_endpoints) then
    api.info api.Skipping_empty_external_endpoints ;;;
    api.ret (kube_endpoint, external_endpoints)
  else
    current <- api.lift (kubernetes.addresses kube_endpoint) ;;
    if negb (models.list_eqb current (external.addresses external_endpoints)) then
      d <- api.lift (kubernetes.diff kube_endpoint
                       (external.addresses external_endpoints)) ;;
      api.info (api.Detected_different_state d) ;;;
      kube_endpoint <- kubernetes.set_addresses kube_endpoint
                         (external.addresses external_endpoints) ;;
      updated <- api.lift (kubernetes.addresses kube_endpoint) ;;
      api.info (api.Kubernetes_endpoint_state_updated updated) ;;;
      api.ret (kube_endpoint, external_endpoints)
    else
      api.info api.In_sync ;;;
      api.ret (kube_endpoint, external_endpoints).

(** The first [schedule] passes of [while True]; [schedule] gives, per
    pass, what happens to the collaborators during the sleep. The loop has
    no exit of its own: a pass that raises ends it. *)
Fixpoint loop (schedule : list (api.world -> api.world))
         (kube_endpoint : kubernetes.Endpoint)
         (external_endpoints : openstack.Endpoints)
  : api.M (kubernetes.Endpoint * openstack.Endpoints) :=
  match schedule with
  | [] => api.ret (kube_endpoint, external_endpoints)
  | env :: rest =>
      api.sleep env ;;;
      objects <- tick kube_endpoint external_endpoints ;;
      loop rest (fst objects) (snd objects)
  end.

(** [sync_loop] *)
Definition sync_loop (schedule : list (api.world -> api.world))
           (kube_endpoint : kubernetes.Endpoint)
           (external_endpoints : openstack.Endpoints)
  : api.M (kubernetes.Endpoint * openstack.Endpoints) :=
  api.info api.Starting_sync_loop ;;;
  loop schedule kube_endpoint external_endpoints.

End main.

(** ** The filter rules in the words of the specification (section 4.1)

    Kept apart from the code above, to be compared with it. *)

Module FilterMatcher.

(** One [(key_pattern, value_pattern)] pair: scan the metadata for a key
    matching [key_pattern]; without one the pair fails; with one, the pair
    passes when the value under that key matches [value_pattern]. *)
Definition pair_passes (metadata : list (string * string))
           (pair : re.regex * re.regex) : bool :=
  match find (fun item => re.match_ (fst pair) (fst item)) metadata with
  | Some (_, value) => re.match_ (snd pair) value
  | None => false
  end.

(** One rule category; a category without a rule of its own is skipped. *)
Definition category_passes (instance : sdk.Server) (rule : openstack.filter)
  : bool :=
  match rule with
  | openstack.filter_name pattern => re.match_ pattern (sdk.name instance)
  | openstack.filter_metadata pairs =>
      forallb (pair_passes (sdk.metadata instance)) pairs
  | openstack.filter_other _ => true
  end.

(** [matches(instance, rules)]: every configured category passes. *)
Definition matches (instance : sdk.Server) (rules : list openstack.filter)
  : bool :=
  forallb (category_passes instance) rules.

End FilterMatcher.

(** ** A deployment to run the definitions on

    The Service [default/web], with the filters [main] builds for it, two
    servers that carry its labels, and a cluster resource with one subset. *)

Module scenario.

Definition A : models.V1EndpointAddress :=
  {| models.hostname := "web-1"; models.node_name := "node-a";
     models.ip := Some "10.0.0.1" |}.

Definition B : models.V1EndpointAddress :=
  {| models.hostname := "web-2"; models.node_name := "node-b";
     models.ip := Some "10.0.0.2" |}.

Definition http : models.V1EndpointPort :=
  {| models.port_name := "http"; models.port := 80; models.protocol := "TCP" |}.

Definition endpoints (l : list models.V1EndpointAddress) : models.V1Endpoints :=
  {| models.metadata := {| models.name := "web"; models.namespace := "default" |};
     models.subsets :=
       Some [ {| models.addresses := Some l; models.ports := Some [http] |} ] |}.

(** [^<text>$] *)
Definition exactly (text : string) : re.regex :=
  re.Cat re.Bol (re.Cat (re.lit text) re.Eol).

(** The filters of [main]: ['.*service.name$': '^web$'] and
    ['.*service.namespace$': '^default$']. *)
Definition filters : list openstack.filter :=
  [ openstack.filter_metadata
      [ (re.Cat re.any_run
           (re.Cat (re.lit "service")
              (re.Cat re.AnyChar (re.Cat (re.lit "name") re.Eol))),
         exactly "web");
        (re.Cat re.any_run
           (re.Cat (re.lit "service")
              (re.Cat re.AnyChar (re.Cat (re.lit "namespace") re.Eol))),
         exactly "default") ] ].

Definition labels : list (string * string) :=
  [ ("kube.service.name", "web"); ("kube.service.namespace", "default") ].

Definition v4 (ip : string) : sdk.address :=
  {| sdk.version := "4"; sdk.addr := ip |}.

Definition v6 (ip : string) : sdk.address :=
  {| sdk.version := "6"; sdk.addr := ip |}.

Definition web1 : sdk.Server :=
  {| sdk.name := "web-1"; sdk.compute_host := "node-a";
     sdk.metadata := labels;
     sdk.addresses := [ ("private", [v4 "10.0.0.1"]) ] |}.

Definition web2 : sdk.Server :=
  {| sdk.name := "web-2"; sdk.compute_host := "node-b";
     sdk.metadata := labels;
     sdk.addresses := [ ("private", [v4 "10.0.0.2"]) ] |}.

(** Labelled for the Service, but with no IPv4 address at all. *)
Definition web3 : sdk.Server :=
  {| sdk.name := "web-3"; sdk.compute_host := "node-c";
     sdk.metadata := labels;
     sdk.addresses := [ ("private", [v6 "fd00::3"]) ] |}.

(** Names the network [public] and has it. *)
Definition web4 : sdk.Server :=
  {| sdk.name := "web-4"; sdk.compute_host := "node-d";
     sdk.metadata := labels ++ [ ("kube.endpoint.network.name", "public") ];
     sdk.addresses := [ ("private", [v4 "192.168.0.4"]);
                        ("public", [v6 "fd00::4"; v4 "10.0.0.4"]) ] |}.

(** Names the network [public] and has only [private]. *)
Definition web5 : sdk.Server :=
  {| sdk.name := "web-5"; sdk.compute_host := "node-e";
     sdk.metadata := labels ++ [ ("kube.endpoint.network.name", "public") ];
     sdk.addresses := [ ("private", [v4 "10.0.0.5"]) ] |}.

Definition kube : kubernetes.Endpoint :=
  {| kubernetes._name := "web"; kubernetes._namespace := "default";
     kubernetes._endpoint := None |}.

Definition ext : openstack.Endpoints :=
  {| openstack._filters := filters; openstack._endpoints := [] |}.

(** Collaborators without faults. *)
Definition healthy (r : option models.V1Endpoints) (l : list sdk.Server)
  : api.world :=
  {| api.resource := r; api.read_fault := None; api.patch_fault := None;
     api.servers := py.Ok l |}.

(** The provider is down. *)
Definition provider_down (r : option models.V1Endpoints) : api.world :=
  {| api.resource := r; api.read_fault := None; api.patch_fault := None;
     api.servers := py.Raise (py.OtherError "ConnectFailure") |}.

(** The cluster rejects patches with a conflict. *)
Definition patch_conflict (r : option models.V1Endpoints) (l : list sdk.Server)
  : api.world :=
  {| api.resource := r; api.read_fault := None;
     api.patch_fault := Some (py.ApiException 409);
     api.servers := py.Ok l |}.

(** The cluster answers reads with a status. *)
Definition read_error (status : nat) (r : option models.V1Endpoints)
           (l : list sdk.Server) : api.world :=
  {| api.resource := r; api.read_fault := Some (py.ApiException status);
     api.patch_fault := None; api.servers := py.Ok l |}.

(** The cluster holds [A; B]; the provider lists the two servers the other
    way round. *)
Definition reordered : api.world :=
  healthy (Some (endpoints [A; B])) [web2; web1].

(** The cluster holds [A; B]; the provider lists them in that order. *)
Definition in_sync : api.world :=
  healthy (Some (endpoints [A; B])) [web1; web2].

(** The cluster holds [A; B]; the one server listed has no IPv4 address. *)
Definition nothing_listed : api.world :=
  healthy (Some (endpoints [A; B])) [web3].

(** No resource in the cluster; the provider lists two servers. *)
Definition no_resource : api.world := healthy None [web1; web2].

(** The store after a read of [endpoints [A; B]]. *)
Definition kube_AB : kubernetes.Endpoint :=
  kubernetes.with_endpoint kube (Some (endpoints [A; B])).

(** [.*endpoint\.network\.name$], the dots escaped. *)
Definition network_name_key_escaped : re.regex :=
  re.Cat re.any_run (re.Cat (re.lit "endpoint.network.name") re.Eol).

(** The rules [{name: "^web-.*", metadata: {"env": "^prod$"}}]. *)
Definition web_prod : list openstack.filter :=
  [ openstack.filter_name
      (re.Cat re.Bol (re.Cat (re.lit "web-") re.any_run));
    openstack.filter_metadata [ (re.lit "env", exactly "prod") ] ].

Definition instance (name : string) (metadata : list (string * string))
  : sdk.Server :=
  {| sdk.name := name; sdk.compute_host := "node";
     sdk.metadata := metadata; sdk.addresses := [] |}.

(** One IPv4 address on [public], one IPv6 address on [private]. *)
Definition dual (metadata : list (string * string)) : sdk.Server :=
  {| sdk.name := "dual"; sdk.compute_host := "node";
     sdk.metadata := metadata;
     sdk.addresses := [ ("public", [v4 "10.0.0.1"]);
                        ("private", [v6 "fd00::1"]) ] |}.

(** Number of passes begun, read off the events. *)
Definition passes (evs : list api.event) : nat :=
  List.length
    (filter
       (fun e => match e with
                 | api.log_info api.Searching_for_kubernetes_endpoints => true
                 | _ => false
                 end) evs).

End scenario.

(** ** [common.py]: the singleton metaclass *)

Module common.

Section MetaSingleton.

(** The instances of the classes built with the metaclass. *)
Variable instance : Type.

(** [MetaSingleton.__singleton_instances], keyed by class; a new key goes to
    the end of the dict. *)
Definition registry : Type := list (string * instance).

(** [MetaSingleton.__call__], for the class [cls]: [construct] is what the
    call of [super().__call__] with the caller's arguments comes to, run only
    when [cls] has no instance yet. The subscript in the [return] is guarded by the test before
    it, so its [KeyError] cannot happen. *)
Definition __call__ (cls : string) (construct : py.result instance)
           (instances : registry) : py.result instance * registry :=
  if negb (py.contains cls instances) then
    match construct with
    | py.Raise e => (py.Raise e, instances)
    | py.Ok i => (py.Ok i, instances ++ [(cls, i)])
    end
  else
    match py.getitem cls instances with
    | Some i => (py.Ok i, instances)
    | None => (py.Raise (py.OtherError "KeyError"), instances)
    end.

End MetaSingleton.

End common.

(** ** [kubernetes.py]: the API client wrapper *)

Module client.

(** The fields of the client's [Configuration] the wrapper sets;
    [api_key_prefix] and [api_key] are the entries under ['authorization']. *)
Record Configuration : Type := {
  verify_ssl : bool;
  api_key_prefix : string;
  host : string;
  api_key : string
}.

(** The object [_APIClient(api_server, api_token)]. *)
Record _APIClient : Type := {
  _api_server : string;
  _api_token : option string;
  _configuration : Configuration
}.

(** [_APIClient._connection] *)
Definition _connection (api_server : string) : string :=
  "https://" ++ api_server.

(** [_APIClient._token]; [token_file] is what opening and reading
    [/var/run/secrets/kubernetes.io/serviceaccount/token] comes to. *)
Definition _token (api_token : option string) (token_file : py.result string)
  : py.result string :=
  match api_token with
  | Some t => if py.truthy t then py.Ok t else token_file
  | None => token_file
  end.

(** [_APIClient.__init__], on a fresh object: neither [_configuration] nor
    [_client] is set yet, so the [hasattr] guard lets the body run. *)
Definition __init__ (api_server api_token : option string)
           (token_file : py.result string) : py.result _APIClient :=
  let server := py.or_else api_server "kubernetes.default.svc" in
  match _token api_token token_file with
  | py.Raise e => py.Raise e
  | py.Ok token =>
      py.Ok {| _api_server := server;
               _api_token := api_token;
               _configuration :=
                 {| verify_ssl := false;
                    api_key_prefix := "Bearer";
                    host := _connection server;
                    api_key := token |} |}
  end.

(** [_APIClient.api_server] and [_APIClient.api_token] *)
Definition api_server (self : _APIClient) : string := host (_configuration self).
Definition api_token (self : _APIClient) : string := api_key (_configuration self).

(** [_APIClient(api_server, api_token)] through the metaclass, as
    [_APICoreV1.__init__] calls it. *)
Definition _APIClient_call (api_server api_token : option string)
           (token_file : py.result string)
           (instances : common.registry _APIClient)
  : py.result _APIClient * common.registry _APIClient :=
  common.__call__ _APIClient "kubernetes._APIClient"
    (__init__ api_server api_token token_file) instances.

End client.

(** ** [external.factory] and [main] *)

Module startup.

(** [str.lower()] on the characters of ASCII; a string with other characters
    is outside the model. *)
Definition lower_char (c : ascii) : ascii :=
  let n := nat_of_ascii c in
  if Nat.leb 65 n && Nat.leb n 90 then ascii_of_nat (n + 32) else c.

Fixpoint lower (s : string) : string :=
  match s with
  | EmptyString => EmptyString
  | String c s' => String (lower_char c) (lower s')
  end.

(** [openstack.Endpoints.is_my_type] *)
Definition is_my_type (_type : string) : bool :=
  if String.eqb (lower _type) "openstack" then true else false.

(** [external.factory]: [ABCEndpoints.__subclasses__()] holds the one class
    [openstack.Endpoints]. *)
Definition factory (_type : string) (filters : list openstack.filter)
  : api.M (option openstack.Endpoints) :=
  if is_my_type _type then
    endpoints <- openstack.Endpoints_init filters ;;
    api.ret (Some endpoints)
  else api.ret None.

(** The pattern [f'^{text}$'] for a [text] of letters, digits, [-], [_] and
    [.], the characters of a Kubernetes name: the dot stays the wildcard it is
    in a pattern, the others stand for themselves. A [text] with other
    characters is outside the model. *)
Fixpoint interpolated (text : string) : re.regex :=
  match text with
  | EmptyString => re.Empty
  | String c rest =>
      re.Cat (if Ascii.eqb c "."%char then re.AnyChar else re.Chr c)
             (interpolated rest)
  end.

Definition anchored (text : string) : re.regex :=
  re.Cat re.Bol (re.Cat (interpolated text) re.Eol).

(** ['.*service.name$'] and ['.*service.namespace$'] *)
Definition service_name_key : re.regex :=
  re.Cat re.any_run
    (re.Cat (re.lit "service")
       (re.Cat re.AnyChar (re.Cat (re.lit "name") re.Eol))).

Definition service_namespace_key : re.regex :=
  re.Cat re.any_run
    (re.Cat (re.lit "service")
       (re.Cat re.AnyChar (re.Cat (re.lit "namespace") re.Eol))).

(** What [main] reads of the parsed arguments. [args] accepts
    ['openstack'] as the only endpoint type. *)
Record config : Type := {
  kubernetes_namespace : string;
  kubernetes_endpoint : string;
  kubernetes_api_server : option string;
  kubernetes_api_token : option string
}.

(** The [filters] argument [main] builds. *)
Definition filters (c : config) : list openstack.filter :=
  [ openstack.filter_metadata
      [ (service_name_key, anchored (kubernetes_endpoint c));
        (service_namespace_key, anchored (kubernetes_namespace c)) ] ].

(** [main], after [args()], in a fresh process: no singleton exists yet.
    The client is built first, inside [kubernetes.Endpoint(...)], then the
    resource is read, then the inventory is built, then the loop runs.
    Building the provider's connection object inside
    [openstack.Endpoints(...)] is taken to succeed; the provider is first
    contacted by the listing. [factory] knows the type ['openstack'], so the
    branch for [None] is never taken. *)
Definition main (c : config) (token_file : py.result string)
           (schedule : list (api.world -> api.world))
  : api.M (kubernetes.Endpoint * openstack.Endpoints) :=
  api.lift (fst (client._APIClient_call (kubernetes_api_server c)
                   (kubernetes_api_token c) token_file [])) ;;;
  kube_endpoint <- kubernetes.Endpoint_init (kubernetes_endpoint c)
                     (kubernetes_namespace c) ;;
  external_endpoints <- factory "openstack" (filters c) ;;
  match external_endpoints with
  | Some endpoints => main.sync_loop schedule kube_endpoint endpoints
  | None => api.raise py.AttributeError
  end.


(** A [text] of ASCII characters only. *)
Fixpoint ascii_only (text : string) : bool :=
  match text with
  | EmptyString => true
  | String c rest => Nat.ltb (nat_of_ascii c) 128 && ascii_only rest
  end.

End startup.

(** ** A start of the process to run the definitions on *)

Module boot.

(** The arguments for the Service [default/web], no server and no token
    given on the command line. *)
Definition web : startup.config :=
  {| startup.kubernetes_namespace := "default";
     startup.kubernetes_endpoint := "web";
     startup.kubernetes_api_server := None;
     startup.kubernetes_api_token := None |}.

(** The same with a token on the command line. *)
Definition web_with_token : startup.config :=
  {| startup.kubernetes_namespace := "default";
     startup.kubernetes_endpoint := "web";
     startup.kubernetes_api_server := Some "10.96.0.1:443";
     startup.kubernetes_api_token := Some "command-line-token" |}.

(** The service account token is mounted, or is not. *)
Definition mounted : py.result string := py.Ok "mounted-token".


End boot.

(** ** Counting the events of a run *)

Module observe.

Definition count (p : api.event -> bool) (evs : list api.event) : nat :=
  List.length (filter p evs).

Definition is_read (e : api.event) : bool :=
  match e with api.read_call _ _ => true | _ => false end.

Definition is_listing (e : api.event) : bool :=
  match e with api.servers_call => true | _ => false end.

Definition is_sleep (e : api.event) : bool :=
  match e with api.sleep_call => true | _ => false end.

(** The first log line of a pass. *)
Definition is_pass (e : api.event) : bool :=
  match e with
  | api.log_info api.Searching_for_kubernetes_endpoints => true
  | _ => false
  end.

(** The log line before the loop. *)
Definition is_start (e : api.event) : bool :=
  match e with
  | api.log_info api.Starting_sync_loop => true
  | _ => false
  end.

End observe.

(** * Properties *)

(** ** Equality of addresses and the difference report *)

Lemma option_eqb_eq (x y : option string) :
  models.option_eqb String.eqb x y = true <-> x = y.
Proof.
  destruct x as [a|], y as [b|]; simpl; try (split; congruence).
  rewrite String.eqb_eq. split; congruence.
Qed.

Lemma address_eqb_eq (a b : models.V1EndpointAddress) :
  models.address_eqb a b = true <-> a = b.
Proof.
  destruct a as [h1 n1 i1], b as [h2 n2 i2]. unfold models.address_eqb. simpl.
  rewrite !andb_true_iff, !String.eqb_eq, option_eqb_eq.
  split.
  - intros [[-> ->] ->]. reflexivity.
  - intros E. injection E as -> -> ->. auto.
Qed.

Lemma list_eqb_eq (l1 l2 : list models.V1EndpointAddress) :
  models.list_eqb l1 l2 = true <-> l1 = l2.
Proof.
  revert l2. induction l1 as [|a l1 IH]; intros [|b l2]; simpl;
    try (split; congruence).
  rewrite andb_true_iff, address_eqb_eq, IH. split.
  - intros [-> ->]. reflexivity.
  - intros E. injection E as -> ->. auto.
Qed.


Lemma list_eqb_neq (l1 l2 : list models.V1EndpointAddress) :
  models.list_eqb l1 l2 = false <-> l1 <> l2.
Proof.
  rewrite <- list_eqb_eq. destruct (models.list_eqb l1 l2); split; congruence.
Qed.

Lemma diff_str_nil (i : nat) (attribute x y : string) :
  deepdiff.diff_str i attribute x y = [] <-> x = y.
Proof.
  unfold deepdiff.diff_str. destruct (String.eqb_spec x y); split; congruence.
Qed.

Lemma diff_optional_nil (i : nat) (attribute : string) (x y : option string) :
  deepdiff.diff_optional i attribute x y = [] <-> x = y.
Proof.
  destruct x as [a|], y as [b|]; simpl; try (split; congruence).
  rewrite diff_str_nil. split; congruence.
Qed.

Lemma diff_item_nil (i : nat) (a b : models.V1EndpointAddress) :
  deepdiff.diff_item i a b = [] <-> a = b.
Proof.
  destruct a as [h1 n1 i1], b as [h2 n2 i2]. unfold deepdiff.diff_item. simpl.
  split.
  - intros E.
    apply app_eq_nil in E as [E1 E2]. apply app_eq_nil in E2 as [E2 E3].
    apply diff_str_nil in E1, E2. apply diff_optional_nil in E3.
    congruence.
  - intros E. injection E as -> -> ->.
    assert (H1 : deepdiff.diff_str i "hostname" h2 h2 = []) by now apply diff_str_nil.
    assert (H2 : deepdiff.diff_str i "node_name" n2 n2 = []) by now apply diff_str_nil.
    assert (H3 : deepdiff.diff_optional i "ip" i2 i2 = []) by now apply diff_optional_nil.
    rewrite H1, H2, H3. reflexivity.
Qed.

Lemma diff_from_nil (i : nat) (t1 t2 : list models.V1EndpointAddress) :
  deepdiff.diff_from i t1 t2 = [] <-> t1 = t2.
Proof.
  revert i t2. induction t1 as [|a t1 IH]; intros i [|b t2]; simpl;
    try (split; congruence).
  split.
  - intros E. apply app_eq_nil in E as [E1 E2].
    apply diff_item_nil in E1. apply IH in E2. congruence.
  - intros E. injection E as -> ->.
    assert (H1 : deepdiff.diff_item i b b = []) by now apply diff_item_nil.
    assert (H2 : deepdiff.diff_from (S i) t2 t2 = []) by now apply IH.
    rewrite H1, H2. reflexivity.
Qed.

(** The report is empty exactly when the two lists are equal. *)
Lemma DeepDiff_nil (t1 t2 : list models.V1EndpointAddress) :
  deepdiff.DeepDiff t1 t2 = [] <-> t1 = t2.
Proof. apply diff_from_nil. Qed.

Lemma truthy_diff (t1 t2 : list models.V1EndpointAddress) :
  kubernetes.truthy (Some (deepdiff.DeepDiff t1 t2)) = negb (models.list_eqb t1 t2).
Proof.
  destruct (models.list_eqb t1 t2) eqn:E.
  - apply list_eqb_eq in E. apply DeepDiff_nil in E. rewrite E. reflexivity.
  - apply list_eqb_neq in E.
    destruct (deepdiff.DeepDiff t1 t2) eqn:D; [|reflexivity].
    apply DeepDiff_nil in D. contradiction.
Qed.

(** [diff([A], [A, B])] reports [B] as added and nothing else. *)
Example diff_direction (A B : models.V1EndpointAddress) :
  deepdiff.DeepDiff [A] [A; B] = [deepdiff.iterable_item_added 1 B].
Proof.
  unfold deepdiff.DeepDiff. simpl.
  assert (H : deepdiff.diff_item 0 A A = []) by now apply diff_item_nil.
  rewrite H. reflexivity.
Qed.

(** ** The cluster endpoint store *)

(** What a read of the resource comes to, by cases on the cluster. *)
Lemma _read_endpoint_run (self : kubernetes.Endpoint) (w : api.world) :
  kubernetes._read_endpoint self w =
  let evs := [api.read_call (kubernetes._name self) (kubernetes._namespace self)] in
  match api.read_fault w with
  | Some e => if py.is_api_exception e then (py.Ok None, w, evs)
              else (py.Raise e, w, evs)
  | None => (py.Ok (api.resource w), w, evs)
  end.
Proof.
  unfold kubernetes._read_endpoint, api.try_except, api.bind,
    api.read_namespaced_endpoints, api.ret.
  destruct (api.read_fault w) as [e|].
  - destruct (py.is_api_exception e); reflexivity.
  - destruct (api.resource w); reflexivity.
Qed.

Lemma refresh_run (self : kubernetes.Endpoint) (w : api.world) :
  kubernetes.refresh self w =
  let evs := [api.read_call (kubernetes._name self) (kubernetes._namespace self)] in
  match api.read_fault w with
  | Some e => if py.is_api_exception e
              then (py.Ok (kubernetes.with_endpoint self None), w, evs)
              else (py.Raise e, w, evs)
  | None => (py.Ok (kubernetes.with_endpoint self (api.resource w)), w, evs)
  end.
Proof.
  unfold kubernetes.refresh, api.bind. rewrite _read_endpoint_run.
  destruct (api.read_fault w) as [e|]; simpl.
  - destruct (py.is_api_exception e); reflexivity.
  - reflexivity.
Qed.

(** C4: applying the list the store already holds writes nothing: the
    difference report is empty, no call is made to the cluster, and both the
    cluster and the store stay as they were. *)
Theorem apply_idempotent
  (self : kubernetes.Endpoint) (ep : models.V1Endpoints)
  (X : list models.V1EndpointAddress) (w : api.world) :
  kubernetes._endpoint self = Some ep ->
  kubernetes.addresses self = py.Ok X ->
  kubernetes.diff self X = py.Ok (Some [])
  /\ kubernetes.set_addresses self X w = (py.Ok self, w, []).
Proof.
  intros He Ha.
  assert (Hd : kubernetes.diff self X = py.Ok (Some [])).
  { unfold kubernetes.diff. rewrite He, Ha.
    assert (D : deepdiff.DeepDiff X X = []) by now apply DeepDiff_nil.
    rewrite D. reflexivity. }
  split; [exact Hd|].
  unfold kubernetes.set_addresses, kubernetes.__bool__. rewrite He.
  unfold api.bind, api.lift. rewrite Hd. reflexivity.
Qed.

(** C9: the accessor on a snapshot whose subsets are null or empty. It raises
    where the claim wants the empty list; on the other states it answers as
    described. *)
Theorem addresses_getter_subsets_missing
  (name namespace : string) (meta : models.V1ObjectMeta) :
  kubernetes.addresses
    {| kubernetes._name := name; kubernetes._namespace := namespace;
       kubernetes._endpoint :=
         Some {| models.metadata := meta; models.subsets := None |} |}
  = py.Raise py.TypeError
  /\ kubernetes.addresses
       {| kubernetes._name := name; kubernetes._namespace := namespace;
          kubernetes._endpoint :=
            Some {| models.metadata := meta; models.subsets := Some [] |} |}
     = py.Raise py.IndexError.
Proof. split; reflexivity. Qed.

(** The states on which the accessor does answer. *)
Lemma addresses_getter_absent (self : kubernetes.Endpoint) :
  kubernetes._endpoint self = None -> kubernetes.addresses self = py.Ok [].
Proof. intros H. unfold kubernetes.addresses. rewrite H. reflexivity. Qed.

Lemma addresses_getter_first_subset
  (self : kubernetes.Endpoint) (ep : models.V1Endpoints)
  (subset : models.V1EndpointSubset) (others : list models.V1EndpointSubset) :
  kubernetes._endpoint self = Some ep ->
  models.subsets ep = Some (subset :: others) ->
  kubernetes.addresses self =
  py.Ok (match models.addresses subset with Some l => l | None => [] end).
Proof.
  intros H1 H2. unfold kubernetes.addresses. rewrite H1, H2. simpl.
  destruct (models.addresses subset) as [[|a l]|]; reflexivity.
Qed.

(** ** The external inventory *)

Lemma or_else_truthy (x : option string) : py.truthy (py.or_else x "4") = true.
Proof.
  destruct x as [s|]; simpl; [|reflexivity].
  destruct (py.truthy s) eqn:E; [exact E|reflexivity].
Qed.

Lemma first_value_find (pattern : re.regex) (items : list (string * string)) :
  openstack.first_value pattern items =
  option_map snd (find (fun item => re.match_ pattern (fst item)) items).
Proof.
  induction items as [|[key value] rest IH]; simpl; [reflexivity|].
  destruct (re.match_ pattern key); [reflexivity|exact IH].
Qed.

Lemma first_address_find (v : string) (l : list sdk.address) :
  py.truthy v = true ->
  openstack.first_address v l =
  option_map sdk.addr (find (fun a => String.eqb v (sdk.version a)) l).
Proof.
  intros Hv. induction l as [|a rest IH]; simpl; [reflexivity|].
  unfold openstack._is_network_version. rewrite Hv. simpl.
  destruct (String.eqb v (sdk.version a)); [reflexivity|exact IH].
Qed.

Lemma first_address_app (v : string) (l1 l2 : list sdk.address) :
  openstack.first_address v (l1 ++ l2) =
  match openstack.first_address v l1 with
  | Some a => Some a
  | None => openstack.first_address v l2
  end.
Proof.
  induction l1 as [|a rest IH]; simpl; [reflexivity|].
  destruct (openstack._is_network_version v a); [reflexivity|exact IH].
Qed.

Lemma first_address_any_concat (v : string) (nets : list (list sdk.address)) :
  openstack.first_address_any v nets = openstack.first_address v (List.concat nets).
Proof.
  induction nets as [|l rest IH]; simpl; [reflexivity|].
  rewrite first_address_app, IH. reflexivity.
Qed.

Lemma contains_getitem {V : Type} (k : string) (d : list (string * V)) :
  py.contains k d = match py.getitem k d with Some _ => true | None => false end.
Proof.
  induction d as [|[k' v] rest IH]; simpl; [reflexivity|].
  destruct (String.eqb k k'); [reflexivity|exact IH].
Qed.

Lemma truthy_nonempty (s : string) : py.truthy s = true <-> s <> "".
Proof.
  unfold py.truthy. destruct (String.eqb_spec s ""); simpl; split; congruence.
Qed.

Lemma endpoint_list_of_app (filters : list openstack.filter) (l1 l2 : list sdk.Server) :
  openstack.endpoint_list_of filters (l1 ++ l2) =
  openstack.endpoint_list_of filters l1 ++ openstack.endpoint_list_of filters l2.
Proof.
  induction l1 as [|s rest IH]; simpl; [reflexivity|].
  destruct (openstack._is_endpoint_server filters s); [|exact IH].
  destruct (openstack.has_address (openstack.Endpoint_init s)); [|exact IH].
  simpl. rewrite IH. reflexivity.
Qed.

Lemma addresses_of_app (l1 l2 : list openstack.Endpoint) :
  external.addresses_of (l1 ++ l2) =
  external.addresses_of l1 ++ external.addresses_of l2.
Proof.
  induction l1 as [|e rest IH]; simpl; [reflexivity|]. rewrite IH. reflexivity.
Qed.

(** A server without a resolved address leaves no trace in the list. *)
Lemma endpoint_list_of_dropped
  (filters : list openstack.filter) (pre post : list sdk.Server) (s : sdk.Server) :
  openstack.address (openstack.Endpoint_init s) = None ->
  openstack.endpoint_list_of filters (pre ++ s :: post) =
  openstack.endpoint_list_of filters (pre ++ post).
Proof.
  intros H. rewrite !endpoint_list_of_app. f_equal. simpl.
  unfold openstack.has_address. rewrite H.
  destruct (openstack._is_endpoint_server filters s); reflexivity.
Qed.

(** Every endpoint kept by [_endpoint_list] has an address. *)
Lemma endpoint_list_of_has_address
  (filters : list openstack.filter) (servers : list sdk.Server) :
  Forall (fun e => openstack.has_address e = true)
         (openstack.endpoint_list_of filters servers).
Proof.
  induction servers as [|s rest IH]; simpl; [constructor|].
  destruct (openstack._is_endpoint_server filters s); [|exact IH].
  destruct (openstack.has_address (openstack.Endpoint_init s)) eqn:E; [|exact IH].
  constructor; assumption.
Qed.

Lemma refresh_external_run (self : openstack.Endpoints) (w : api.world) :
  openstack.refresh self w =
  match api.servers w with
  | py.Ok servers =>
      (py.Ok (openstack.with_endpoints self
                (openstack.endpoint_list_of (openstack._filters self) servers)),
       w, [api.servers_call])
  | py.Raise e => (py.Raise e, w, [api.servers_call])
  end.
Proof.
  unfold openstack.refresh, openstack._endpoint_list, api.bind,
    api.compute_servers, api.ret.
  destruct (api.servers w); reflexivity.
Qed.

(** C5, as the code has it: the first metadata key matching
    [.*endpoint.network.name$] names the network. When that name is not empty
    and is a key of the server's address map, only that network is searched
    and the address is its first entry of the target version; without a name,
    or with a name the address map does not have, all networks are searched
    in iteration order. A server left without an address is dropped. *)
Theorem named_network_resolution (server : sdk.Server) :
  let e := openstack.Endpoint_init server in
  let same_version := fun a => String.eqb (openstack._network_version e) (sdk.version a) in
  openstack._metadata_network_name server =
    option_map snd
      (find (fun item => re.match_ openstack.network_name_key (fst item))
            (sdk.metadata server))
  /\ (forall n l,
         openstack._metadata_network_name server = Some n ->
         n <> "" ->
         py.getitem n (sdk.addresses server) = Some l ->
         openstack.address e = option_map sdk.addr (find same_version l))
  /\ (openstack._metadata_network_name server = None
      \/ openstack._metadata_network_name server = Some ""
      \/ (exists n, openstack._metadata_network_name server = Some n
                    /\ py.getitem n (sdk.addresses server) = None) ->
      openstack.address e =
      option_map sdk.addr
        (find same_version (List.concat (py.values (sdk.addresses server)))))
  /\ (openstack.address e = None ->
      forall filters pre post,
        openstack.endpoint_list_of filters (pre ++ server :: post) =
        openstack.endpoint_list_of filters (pre ++ post)).
Proof.
  intros e same_version.
  assert (Hv : py.truthy (openstack._network_version e) = true)
    by apply or_else_truthy.
  split; [apply first_value_find|].
  split; [|split].
  - intros n l Hn Hne Hl.
    unfold openstack.address, e. simpl.
    unfold openstack._network_address, openstack._has_named_network.
    rewrite Hn. apply truthy_nonempty in Hne. rewrite Hne. simpl.
    rewrite contains_getitem, Hl.
    apply first_address_find. exact Hv.
  - intros H.
    unfold openstack.address, e. simpl.
    unfold openstack._network_address, openstack._has_named_network.
    destruct H as [H|[H|[n [H1 H2]]]].
    + rewrite H. rewrite first_address_any_concat.
      apply first_address_find. exact Hv.
    + rewrite H. simpl. rewrite first_address_any_concat.
      apply first_address_find. exact Hv.
    + rewrite H1. rewrite contains_getitem, H2.
      destruct (negb (py.truthy n));
        rewrite first_address_any_concat; apply first_address_find; exact Hv.
  - intros H filters pre post. apply endpoint_list_of_dropped. exact H.
Qed.

(** C6: no address in the emitted list has a null ip, whatever the provider
    listed; a server that passes the filters and resolves no address is left
    out, where one that resolves an address contributes one entry. *)
Theorem emitted_addresses_have_ip
  (filters : list openstack.filter) (servers : list sdk.Server) :
  Forall (fun a => models.ip a <> None)
         (external.addresses_of (openstack.endpoint_list_of filters servers))
  /\ (forall (self : openstack.Endpoints) (w : api.world),
         openstack._filters self = filters ->
         api.servers w = py.Ok servers ->
         exists self',
           api.outcome (openstack.refresh self w) = py.Ok self'
           /\ Forall (fun a => models.ip a <> None) (external.addresses self'))
  /\ (forall pre s post,
         servers = pre ++ s :: post ->
         openstack._is_endpoint_server filters s = true ->
         match openstack.address (openstack.Endpoint_init s) with
         | None =>
             external.addresses_of (openstack.endpoint_list_of filters servers) =
             external.addresses_of (openstack.endpoint_list_of filters pre)
             ++ external.addresses_of (openstack.endpoint_list_of filters post)
         | Some i =>
             external.addresses_of (openstack.endpoint_list_of filters servers) =
             external.addresses_of (openstack.endpoint_list_of filters pre)
             ++ {| models.hostname := sdk.name s;
                   models.node_name := sdk.compute_host s;
                   models.ip := Some i |}
             :: external.addresses_of (openstack.endpoint_list_of filters post)
         end).
Proof.
  assert (H1 : forall l,
             Forall (fun a => models.ip a <> None)
                    (external.addresses_of (openstack.endpoint_list_of filters l))).
  { intros l. pose proof (endpoint_list_of_has_address filters l) as H.
    induction H as [|e es He _ IH]; simpl; constructor; [|exact IH].
    simpl. unfold openstack.has_address in He.
    destruct (openstack.address e); congruence. }
  split; [apply H1|]. split.
  - intros self w Hf Hs. rewrite refresh_external_run, Hs.
    eexists. split; [reflexivity|].
    unfold external.addresses. simpl. rewrite Hf. apply H1.
  - intros pre s post -> Hm.
    rewrite endpoint_list_of_app, addresses_of_app.
    cbn [openstack.endpoint_list_of]. rewrite Hm.
    unfold openstack.has_address.
    destruct (openstack.address (openstack.Endpoint_init s)) eqn:E.
    + cbn [external.addresses_of app]. rewrite E. reflexivity.
    + reflexivity.
Qed.

(** ** The filter rules *)

Lemma __filter_pair_passes
  (items : list (string * string)) (filter_key filter_value : re.regex) :
  openstack.__filter items filter_key filter_value =
  FilterMatcher.pair_passes items (filter_key, filter_value).
Proof.
  unfold FilterMatcher.pair_passes. simpl.
  induction items as [|[k v] rest IH]; simpl; [reflexivity|].
  destruct (re.match_ filter_key k); [|exact IH].
  destruct (re.match_ filter_value v); reflexivity.
Qed.

Lemma _filter_server_metadata_forallb
  (server : sdk.Server) (_filter : list (re.regex * re.regex)) :
  openstack._filter_server_metadata server _filter =
  forallb (FilterMatcher.pair_passes (sdk.metadata server)) _filter.
Proof.
  induction _filter as [|[k v] rest IH]; simpl; [reflexivity|].
  rewrite __filter_pair_passes.
  destruct (FilterMatcher.pair_passes (sdk.metadata server) (k, v)); simpl;
    [exact IH|reflexivity].
Qed.

(** The pair fails when no key matches. *)
Lemma __filter_no_key
  (items : list (string * string)) (filter_key filter_value : re.regex) :
  (forall item, In item items -> re.match_ filter_key (fst item) = false) ->
  openstack.__filter items filter_key filter_value = false.
Proof.
  induction items as [|[k v] rest IH]; intros H; simpl; [reflexivity|].
  pose proof (H (k, v) (or_introl eq_refl)) as Hk. simpl in Hk. rewrite Hk.
  apply IH.
  intros item Hi. apply H. right. exact Hi.
Qed.

(** The first matching key decides, whatever follows it. *)
Lemma __filter_first_key
  (pre post : list (string * string)) (k v : string)
  (filter_key filter_value : re.regex) :
  (forall item, In item pre -> re.match_ filter_key (fst item) = false) ->
  re.match_ filter_key k = true ->
  openstack.__filter (pre ++ (k, v) :: post) filter_key filter_value =
  re.match_ filter_value v.
Proof.
  induction pre as [|[k' v'] rest IH]; intros H Hk; simpl.
  - rewrite Hk. destruct (re.match_ filter_value v); reflexivity.
  - pose proof (H (k', v') (or_introl eq_refl)) as Hk'. simpl in Hk'.
    rewrite Hk'. apply IH; [|exact Hk].
    intros item Hi. apply H. right. exact Hi.
Qed.

(** C7: the code's filter is the conjunction of the configured categories,
    the metadata category the conjunction of its pairs, and a pair passes as
    section 4.1 says: it fails without a matching key, and with one the value
    under the first matching key decides. *)
Theorem filter_is_conjunction
  (rules : list openstack.filter) (instance : sdk.Server) :
  openstack._is_endpoint_server rules instance =
  FilterMatcher.matches instance rules.
Proof.
  unfold FilterMatcher.matches.
  induction rules as [|rule rest IH]; simpl; [reflexivity|].
  destruct rule as [p|pairs|key]; simpl.
  - unfold openstack._filter_server_name.
    destruct (re.match_ p (sdk.name instance)); simpl; [exact IH|reflexivity].
  - rewrite _filter_server_metadata_forallb.
    destruct (forallb (FilterMatcher.pair_passes (sdk.metadata instance)) pairs);
      simpl; [exact IH|reflexivity].
  - exact IH.
Qed.

(** ** One pass of the loop *)

Lemma refresh_shape (self : kubernetes.Endpoint) (w : api.world) :
  kubernetes.refresh self w =
  (api.outcome (kubernetes.refresh self w), w,
   [api.read_call (kubernetes._name self) (kubernetes._namespace self)]).
Proof.
  rewrite refresh_run. simpl.
  destruct (api.read_fault w) as [e|]; [|reflexivity].
  destruct (py.is_api_exception e); reflexivity.
Qed.

(** The pass, laid out by the outcome of each step. *)
Lemma tick_run (kube : kubernetes.Endpoint) (ext : openstack.Endpoints)
      (w : api.world) :
  main.tick kube ext w =
  let l1 := api.log_info api.Searching_for_kubernetes_endpoints in
  let rd := api.read_call (kubernetes._name kube) (kubernetes._namespace kube) in
  match api.outcome (kubernetes.refresh kube w) with
  | py.Raise e => (py.Raise e, w, [l1; rd])
  | py.Ok kube1 =>
      match kubernetes.addresses kube1 with
      | py.Raise e => (py.Raise e, w, [l1; rd])
      | py.Ok fetched =>
          let l2 := api.log_info (api.Kubernetes_endpoints_fetched fetched) in
          let l3 := api.log_info api.Searching_for_external_endpoints in
          match api.servers w with
          | py.Raise e => (py.Raise e, w, [l1; rd; l2; l3; api.servers_call])
          | py.Ok servers =>
              let ext1 :=
                openstack.with_endpoints ext
                  (openstack.endpoint_list_of (openstack._filters ext) servers) in
              let ea := external.addresses ext1 in
              let head := [l1; rd; l2; l3; api.servers_call;
                           api.log_info (api.External_endpoint_fetched ea)] in
              if negb (kubernetes.__bool__ kube1) then
                (py.Ok (kube1, ext1), w,
                 head ++ [api.log_info api.Skipping_empty_kubernetes_endpoints])
              else if negb (external.__bool__ ext1) then
                (py.Ok (kube1, ext1), w,
                 head ++ [api.log_info api.Skipping_empty_external_endpoints])
              else if negb (models.list_eqb fetched ea) then
                match
                  (d <- api.lift (kubernetes.diff kube1 ea) ;;
                   api.info (api.Detected_different_state d) ;;;
                   kube2 <- kubernetes.set_addresses kube1 ea ;;
                   updated <- api.lift (kubernetes.addresses kube2) ;;
                   api.info (api.Kubernetes_endpoint_state_updated updated) ;;;
                   api.ret (kube2, ext1)) w
                with
                | (r, w', evs) => (r, w', head ++ evs)
                end
              else (py.Ok (kube1, ext1), w, head ++ [api.log_info api.In_sync])
          end
      end
  end.
Proof.
  unfold main.tick.
  unfold api.bind at 1. unfold api.info at 1, api.emit at 1.
  unfold api.bind at 1. pose proof (refresh_shape kube w) as Hs.
  destruct (api.outcome (kubernetes.refresh kube w)) as [kube1|e]; rewrite Hs;
    [|reflexivity].
  unfold api.bind at 1. unfold api.lift at 1.
  destruct (kubernetes.addresses kube1) as [fetched|e] eqn:Ha; [|reflexivity].
  unfold api.bind at 1. unfold api.info at 1, api.emit at 1.
  unfold api.bind at 1. unfold api.info at 1, api.emit at 1.
  unfold api.bind at 1. rewrite refresh_external_run.
  destruct (api.servers w) as [servers|e]; [|reflexivity].
  unfold api.bind at 1. unfold api.info at 1, api.emit at 1.
  destruct (negb (kubernetes.__bool__ kube1)); [reflexivity|].
  destruct (negb (external.__bool__ _)); [reflexivity|].
  unfold api.bind at 1. unfold api.lift at 1.
  destruct (negb (models.list_eqb fetched _)); [|reflexivity].
  match goal with
  | |- context [match ?m w with _ => _ end] => destruct (m w) as [[r w'] evs]
  end.
  reflexivity.
Qed.

(** The update branch of the pass, on a store that holds a snapshot whose
    addresses differ from the candidate. *)
Lemma update_run
  (kube1 : kubernetes.Endpoint) (ext1 : openstack.Endpoints) (w : api.world)
  (ep : models.V1Endpoints) (current ea : list models.V1EndpointAddress) :
  kubernetes._endpoint kube1 = Some ep ->
  kubernetes.addresses kube1 = py.Ok current ->
  models.list_eqb current ea = false ->
  (d <- api.lift (kubernetes.diff kube1 ea) ;;
   api.info (api.Detected_different_state d) ;;;
   kube2 <- kubernetes.set_addresses kube1 ea ;;
   updated <- api.lift (kubernetes.addresses kube2) ;;
   api.info (api.Kubernetes_endpoint_state_updated updated) ;;;
   api.ret (kube2, ext1)) w =
  let det := api.log_info
               (api.Detected_different_state
                  (Some (deepdiff.DeepDiff current ea))) in
  let rd := api.read_call (kubernetes._name kube1) (kubernetes._namespace kube1) in
  match kubernetes.ports kube1 with
  | py.Raise e => (py.Raise e, w, [det])
  | py.Ok ps =>
      let body := [ {| models.addresses := Some ea; models.ports := Some ps |} ] in
      let pc := api.patch_call (kubernetes.name kube1) (kubernetes.namespace kube1)
                  body
                  ("kube-endpoint-manager-"
                     ++ kubernetes.str (kubernetes.namespace kube1)
                     ++ "-" ++ kubernetes.str (kubernetes.name kube1)) in
      match api.patch_fault w with
      | Some e => (py.Raise e, w, [det; pc])
      | None =>
          match api.resource w with
          | None => (py.Raise (py.ApiException 404), w, [det; pc])
          | Some ep0 =>
              let w' := api.set_resource w
                          (Some {| models.metadata := models.metadata ep0;
                                   models.subsets := Some body |}) in
              match api.outcome (kubernetes.refresh kube1 w') with
              | py.Raise e => (py.Raise e, w', [det; pc; rd])
              | py.Ok kube2 =>
                  match kubernetes.addresses kube2 with
                  | py.Raise e => (py.Raise e, w', [det; pc; rd])
                  | py.Ok updated =>
                      (py.Ok (kube2, ext1), w',
                       [det; pc; rd;
                        api.log_info (api.Kubernetes_endpoint_state_updated updated)])
                  end
              end
          end
      end
  end.
Proof.
  intros He Ha Hne.
  assert (Hd : kubernetes.diff kube1 ea =
               py.Ok (Some (deepdiff.DeepDiff current ea))).
  { unfold kubernetes.diff. rewrite He, Ha. reflexivity. }
  assert (Ht : kubernetes.truthy (Some (deepdiff.DeepDiff current ea)) = true).
  { rewrite truthy_diff, Hne. reflexivity. }
  unfold api.bind at 1. unfold api.lift at 1. rewrite Hd.
  unfold api.bind at 1. unfold api.info at 1, api.emit at 1.
  unfold api.bind at 1.
  unfold kubernetes.set_addresses, kubernetes.__bool__. rewrite He.
  unfold api.bind at 1. unfold api.lift at 1. rewrite Hd, Ht.
  unfold api.bind at 1.
  unfold kubernetes._patch_addresses.
  unfold api.bind at 1. unfold api.lift at 1.
  destruct (kubernetes.ports kube1) as [ps|e]; [|reflexivity].
  unfold api.patch_namespaced_endpoints.
  destruct (api.patch_fault w) as [e|]; [reflexivity|].
  destruct (api.resource w) as [ep0|]; [|reflexivity].
  match goal with
  | |- context [kubernetes.refresh kube1 ?w'] =>
      pose proof (refresh_shape kube1 w') as Hs;
      destruct (api.outcome (kubernetes.refresh kube1 w')) as [kube2|e];
      rewrite Hs; [|reflexivity]
  end.
  unfold api.bind at 1. unfold api.lift at 1.
  destruct (kubernetes.addresses kube2) as [updated|e]; reflexivity.
Qed.

(** A pass that raises ends the loop; one that returns hands over to the
    rest of the schedule. *)
Lemma loop_step
  (env : api.world -> api.world) (rest : list (api.world -> api.world))
  (kube : kubernetes.Endpoint) (ext : openstack.Endpoints) (w : api.world) :
  main.loop (env :: rest) kube ext w =
  match main.tick kube ext (env w) with
  | (py.Raise e, w1, evs) => (py.Raise e, w1, api.sleep_call :: evs)
  | (py.Ok objects, w1, evs) =>
      match main.loop rest (fst objects) (snd objects) w1 with
      | (r, w2, evs2) => (r, w2, api.sleep_call :: evs ++ evs2)
      end
  end.
Proof.
  simpl. unfold api.bind at 1. unfold api.sleep at 1.
  unfold api.bind at 1.
  destruct (main.tick kube ext (env w)) as [[[objects|e] w1] evs]; [|reflexivity].
  destruct (main.loop rest (fst objects) (snd objects) w1) as [[r w2] evs2].
  reflexivity.
Qed.

(** A read that raises an API exception leaves the store absent. *)
Lemma refresh_api_exception
  (kube : kubernetes.Endpoint) (w : api.world) (e : py.exn) :
  api.outcome
    (api.read_namespaced_endpoints
       (kubernetes._name kube) (kubernetes._namespace kube) w) = py.Raise e ->
  py.is_api_exception e = true ->
  api.outcome (kubernetes.refresh kube w) =
  py.Ok (kubernetes.with_endpoint kube None).
Proof.
  rewrite refresh_run. unfold api.read_namespaced_endpoints, api.outcome. simpl.
  destruct (api.read_fault w) as [e'|]; simpl.
  - intros [= ->] ->. reflexivity.
  - destruct (api.resource w); simpl; [discriminate|reflexivity].
Qed.

(** The pass on an absent store: no call but the read and the listing. *)
Lemma tick_absent
  (kube : kubernetes.Endpoint) (ext : openstack.Endpoints) (w : api.world) :
  api.outcome (kubernetes.refresh kube w) =
  py.Ok (kubernetes.with_endpoint kube None) ->
  main.tick kube ext w =
  let l1 := api.log_info api.Searching_for_kubernetes_endpoints in
  let rd := api.read_call (kubernetes._name kube) (kubernetes._namespace kube) in
  let l2 := api.log_info (api.Kubernetes_endpoints_fetched []) in
  let l3 := api.log_info api.Searching_for_external_endpoints in
  match api.servers w with
  | py.Raise e => (py.Raise e, w, [l1; rd; l2; l3; api.servers_call])
  | py.Ok servers =>
      let ext1 :=
        openstack.with_endpoints ext
          (openstack.endpoint_list_of (openstack._filters ext) servers) in
      (py.Ok (kubernetes.with_endpoint kube None, ext1), w,
       [l1; rd; l2; l3; api.servers_call;
        api.log_info (api.External_endpoint_fetched (external.addresses ext1));
        api.log_info api.Skipping_empty_kubernetes_endpoints])
  end.
Proof.
  intros H. rewrite tick_run, H. simpl.
  destruct (api.servers w); reflexivity.
Qed.

(** C1: when the provider lists servers of which none yields an address, the
    pass sends no patch and leaves the cluster as it found it, whatever the
    cluster holds. *)
Theorem empty_external_never_patches
  (kube : kubernetes.Endpoint) (ext : openstack.Endpoints) (w : api.world)
  (servers : list sdk.Server) :
  api.servers w = py.Ok servers ->
  external.addresses_of
    (openstack.endpoint_list_of (openstack._filters ext) servers) = [] ->
  api.patches (main.tick kube ext w) = []
  /\ api.final (main.tick kube ext w) = w.
Proof.
  intros Hs He. rewrite tick_run. cbv zeta.
  destruct (api.outcome (kubernetes.refresh kube w)) as [kube1|e];
    [|split; reflexivity].
  destruct (kubernetes.addresses kube1) as [fetched|e]; [|split; reflexivity].
  rewrite Hs.
  unfold external.__bool__, external.addresses. simpl. rewrite He.
  destruct (kubernetes.__bool__ kube1); split; reflexivity.
Qed.

(** C2: when the read finds no resource, the pass sends no patch, returns
    normally after the skip message and creates nothing, whatever the provider
    lists; and the apply operation on an absent snapshot does nothing. *)
Theorem absent_resource_never_patched
  (kube : kubernetes.Endpoint) (ext : openstack.Endpoints) (w : api.world)
  (servers : list sdk.Server) :
  api.outcome
    (api.read_namespaced_endpoints
       (kubernetes._name kube) (kubernetes._namespace kube) w)
  = py.Raise (py.ApiException 404) ->
  api.servers w = py.Ok servers ->
  api.patches (main.tick kube ext w) = []
  /\ api.final (main.tick kube ext w) = w
  /\ api.outcome (main.tick kube ext w) =
     py.Ok (kubernetes.with_endpoint kube None,
            openstack.with_endpoints ext
              (openstack.endpoint_list_of (openstack._filters ext) servers))
  /\ last (api.events (main.tick kube ext w)) api.sleep_call =
     api.log_info api.Skipping_empty_kubernetes_endpoints
  /\ (forall (self : kubernetes.Endpoint)
             (value : list models.V1EndpointAddress) (w' : api.world),
         kubernetes._endpoint self = None ->
         kubernetes.set_addresses self value w' = (py.Ok self, w', [])).
Proof.
  intros Hr Hs.
  rewrite (tick_absent kube ext w (refresh_api_exception kube w _ Hr eq_refl)).
  cbv zeta. rewrite Hs.
  repeat split.
  intros self value w' H.
  unfold kubernetes.set_addresses, kubernetes.__bool__. rewrite H. reflexivity.
Qed.

(** C3, as the code has it: with the resource present and the external list
    not empty, the pass enters the update branch, and with readable ports
    sends its one patch, exactly when the two lists differ as ordered lists
    (Python's [!=] on lists); equal lists send none. *)
Theorem patch_iff_lists_differ
  (kube : kubernetes.Endpoint) (ext : openstack.Endpoints) (w : api.world)
  (ep : models.V1Endpoints) (current : list models.V1EndpointAddress)
  (ps : list models.V1EndpointPort) (servers : list sdk.Server) :
  api.read_fault w = None ->
  api.resource w = Some ep ->
  kubernetes.addresses (kubernetes.with_endpoint kube (Some ep)) = py.Ok current ->
  kubernetes.ports (kubernetes.with_endpoint kube (Some ep)) = py.Ok ps ->
  api.servers w = py.Ok servers ->
  external.addresses_of
    (openstack.endpoint_list_of (openstack._filters ext) servers) <> [] ->
  let ea := external.addresses_of
              (openstack.endpoint_list_of (openstack._filters ext) servers) in
  let run := main.tick kube ext w in
  (api.patches run <> [] <-> current <> ea)
  /\ (In (api.log_info
            (api.Detected_different_state (Some (deepdiff.DeepDiff current ea))))
         (api.events run) <-> current <> ea)
  /\ (current <> ea ->
      api.patches run =
      [ api.patch_call
          (Some (models.name (models.metadata ep)))
          (Some (models.namespace (models.metadata ep)))
          [ {| models.addresses := Some ea; models.ports := Some ps |} ]
          ("kube-endpoint-manager-" ++ models.namespace (models.metadata ep)
             ++ "-" ++ models.name (models.metadata ep)) ])
  /\ (current = ea ->
      api.outcome run =
      py.Ok (kubernetes.with_endpoint kube (Some ep),
             openstack.with_endpoints ext
               (openstack.endpoint_list_of (openstack._filters ext) servers))
      /\ last (api.events run) api.sleep_call = api.log_info api.In_sync).
Proof.
  intros Hf Hr Ha Hp Hs Hne ea run.
  assert (Hk : api.outcome (kubernetes.refresh kube w) =
               py.Ok (kubernetes.with_endpoint kube (Some ep))).
  { rewrite refresh_run, Hf, Hr. reflexivity. }
  assert (Hb : external.__bool__
                 (openstack.with_endpoints ext
                    (openstack.endpoint_list_of (openstack._filters ext) servers))
               = true).
  { unfold external.__bool__, external.addresses. simpl.
    fold ea. fold ea in Hne. destruct ea; [contradiction|reflexivity]. }
  assert (Hrun : run = main.tick kube ext w) by reflexivity.
  rewrite tick_run, Hk, Ha, Hs in Hrun. cbv zeta in Hrun.
  rewrite Hb in Hrun.
  change (external.addresses
            (openstack.with_endpoints ext
               (openstack.endpoint_list_of (openstack._filters ext) servers)))
    with ea in Hrun.
  simpl kubernetes.__bool__ in Hrun. cbv iota in Hrun. simpl negb in Hrun.
  cbv iota in Hrun.
  destruct (models.list_eqb current ea) eqn:E.
  - (* equal lists *)
    apply list_eqb_eq in E. simpl in Hrun. rewrite Hrun.
    split; [|split; [|split]].
    + split; [intros H; exfalso; apply H; reflexivity|contradiction].
    + split; [|contradiction].
      simpl. intros H.
      repeat (destruct H as [H|H]; [discriminate H|]). destruct H.
    + contradiction.
    + intros _. split; reflexivity.
  - (* different lists *)
    assert (Hd : current <> ea) by (apply list_eqb_neq; exact E).
    simpl negb in Hrun. cbv iota in Hrun.
    rewrite (update_run (kubernetes.with_endpoint kube (Some ep)) _ w ep
               current ea eq_refl Ha E) in Hrun.
    rewrite Hp in Hrun. cbv zeta in Hrun.
    assert (Hpatch :
              api.patches run =
              [ api.patch_call
                  (Some (models.name (models.metadata ep)))
                  (Some (models.namespace (models.metadata ep)))
                  [ {| models.addresses := Some ea; models.ports := Some ps |} ]
                  ("kube-endpoint-manager-" ++ models.namespace (models.metadata ep)
                     ++ "-" ++ models.name (models.metadata ep)) ]
              /\ In (api.log_info
                       (api.Detected_different_state
                          (Some (deepdiff.DeepDiff current ea))))
                    (api.events run)).
    { rewrite Hrun.
      destruct (api.patch_fault w) as [e|].
      { split; [reflexivity|]. simpl. tauto. }
      rewrite Hr.
      match goal with
      | |- context [kubernetes.refresh ?k ?w'] =>
          destruct (api.outcome (kubernetes.refresh k w')) as [kube2|e]
      end.
      - destruct (kubernetes.addresses kube2);
          (split; [reflexivity|simpl; tauto]).
      - split; [reflexivity|simpl; tauto]. }
    destruct Hpatch as [Hpatch Hlog].
    split; [|split; [|split]].
    + split; [intros _; exact Hd|intros _; rewrite Hpatch; discriminate].
    + split; [intros _; exact Hd|intros _; exact Hlog].
    + intros _. exact Hpatch.
    + intros H. contradiction.
Qed.

(** C8, as the code has it: [sync_loop] has no handler. A pass that raises
    ends the loop and nothing of the later passes happens. A failing provider
    listing raises out of the pass, and so do a failing patch call and a read
    failing with anything but an API exception. Only an API exception raised
    by the read is caught, in [_read_endpoint]: the pass then returns without
    a patch and the loop goes on with the next pass. *)
Theorem failures_end_the_loop
  (kube : kubernetes.Endpoint) (ext : openstack.Endpoints) (w : api.world) :
  (forall env rest e,
      api.outcome (main.tick kube ext (env w)) = py.Raise e ->
      api.outcome (main.loop (env :: rest) kube ext w) = py.Raise e
      /\ api.events (main.loop (env :: rest) kube ext w) =
         api.sleep_call :: api.events (main.tick kube ext (env w)))
  /\ (forall env rest objects,
         api.outcome (main.tick kube ext (env w)) = py.Ok objects ->
         api.events (main.loop (env :: rest) kube ext w) =
         api.sleep_call :: api.events (main.tick kube ext (env w))
           ++ api.events (main.loop rest (fst objects) (snd objects)
                            (api.final (main.tick kube ext (env w)))))
  /\ (forall kube1 fetched e,
         api.outcome (kubernetes.refresh kube w) = py.Ok kube1 ->
         kubernetes.addresses kube1 = py.Ok fetched ->
         api.servers w = py.Raise e ->
         api.outcome (main.tick kube ext w) = py.Raise e)
  /\ (forall ep current ps servers e,
         api.read_fault w = None ->
         api.resource w = Some ep ->
         kubernetes.addresses (kubernetes.with_endpoint kube (Some ep)) = py.Ok current ->
         kubernetes.ports (kubernetes.with_endpoint kube (Some ep)) = py.Ok ps ->
         api.servers w = py.Ok servers ->
         external.addresses_of
           (openstack.endpoint_list_of (openstack._filters ext) servers) <> [] ->
         current <> external.addresses_of
                      (openstack.endpoint_list_of (openstack._filters ext) servers) ->
         api.patch_fault w = Some e ->
         api.outcome (main.tick kube ext w) = py.Raise e)
  /\ (forall e,
         api.read_fault w = Some e ->
         py.is_api_exception e = false ->
         api.outcome (main.tick kube ext w) = py.Raise e)
  /\ (forall e servers,
         api.read_fault w = Some e ->
         py.is_api_exception e = true ->
         api.servers w = py.Ok servers ->
         api.outcome (main.tick kube ext w) =
         py.Ok (kubernetes.with_endpoint kube None,
                openstack.with_endpoints ext
                  (openstack.endpoint_list_of (openstack._filters ext) servers))
         /\ api.patches (main.tick kube ext w) = []).
Proof.
  split; [|split; [|split; [|split; [|split]]]].
  - intros env rest e H. rewrite loop_step.
    destruct (main.tick kube ext (env w)) as [[[objects|e'] w1] evs];
      simpl in H; [discriminate|].
    injection H as ->. split; reflexivity.
  - intros env rest objects H. rewrite loop_step.
    destruct (main.tick kube ext (env w)) as [[[objects'|e'] w1] evs];
      simpl in H; [|discriminate].
    injection H as ->. unfold api.final. cbn [fst snd].
    destruct (main.loop rest (fst objects) (snd objects) w1) as [[r w2] evs2].
    reflexivity.
  - intros kube1 fetched e Hk Ha Hs. rewrite tick_run, Hk, Ha, Hs. reflexivity.
  - intros ep current ps servers e Hf Hr Ha Hp Hs Hne Hd He.
    assert (Hk : api.outcome (kubernetes.refresh kube w) =
                 py.Ok (kubernetes.with_endpoint kube (Some ep))).
    { rewrite refresh_run, Hf, Hr. reflexivity. }
    apply list_eqb_neq in Hd.
    rewrite tick_run, Hk, Ha, Hs. cbv zeta.
    unfold external.__bool__, external.addresses. simpl openstack._endpoints.
    destruct (external.addresses_of
                (openstack.endpoint_list_of (openstack._filters ext) servers))
      as [|a ea] eqn:Eea; [contradiction|].
    simpl kubernetes.__bool__. cbv iota. simpl negb. cbv iota.
    rewrite Hd. simpl negb. cbv iota.
    rewrite (update_run (kubernetes.with_endpoint kube (Some ep)) _ w ep
               current (a :: ea) eq_refl Ha Hd).
    rewrite Hp. cbv zeta. rewrite He. reflexivity.
  - intros e Hf He. rewrite tick_run, refresh_run, Hf. simpl. rewrite He.
    reflexivity.
  - intros e servers Hf He Hs.
    assert (Hk : api.outcome (kubernetes.refresh kube w) =
                 py.Ok (kubernetes.with_endpoint kube None)).
    { rewrite refresh_run, Hf. simpl. rewrite He. reflexivity. }
    rewrite (tick_absent kube ext w Hk). cbv zeta. rewrite Hs.
    split; reflexivity.
Qed.

(** C10: an API exception on the read, of any status, is caught by the
    constructor and by [refresh]; the store is then absent, says so, returns
    no address, and the pass sends no patch and is skipped; outcome and events
    are those of a cluster where the resource is missing. *)
Theorem api_read_error_reads_as_absent
  (kube : kubernetes.Endpoint) (ext : openstack.Endpoints) (w : api.world)
  (e : py.exn) :
  api.outcome
    (api.read_namespaced_endpoints
       (kubernetes._name kube) (kubernetes._namespace kube) w) = py.Raise e ->
  py.is_api_exception e = true ->
  let absent := kubernetes.with_endpoint kube None in
  api.outcome
    (kubernetes.Endpoint_init (kubernetes._name kube) (kubernetes._namespace kube) w)
  = py.Ok absent
  /\ api.outcome (kubernetes.refresh kube w) = py.Ok absent
  /\ kubernetes.__bool__ absent = false
  /\ kubernetes.addresses absent = py.Ok []
  /\ api.patches (main.tick kube ext w) = []
  /\ (forall servers,
         api.servers w = py.Ok servers ->
         api.outcome (main.tick kube ext w) =
         py.Ok (absent,
                openstack.with_endpoints ext
                  (openstack.endpoint_list_of (openstack._filters ext) servers))
         /\ last (api.events (main.tick kube ext w)) api.sleep_call =
            api.log_info api.Skipping_empty_kubernetes_endpoints)
  /\ (forall missing,
         api.read_fault missing = None ->
         api.resource missing = None ->
         api.servers missing = api.servers w ->
         api.outcome (kubernetes.refresh kube missing) =
         api.outcome (kubernetes.refresh kube w)
         /\ api.outcome (main.tick kube ext missing) =
            api.outcome (main.tick kube ext w)
         /\ api.events (main.tick kube ext missing) =
            api.events (main.tick kube ext w)).
Proof.
  intros Hr He absent.
  pose proof (refresh_api_exception kube w e Hr He) as Hk.
  split; [|split; [exact Hk|split; [reflexivity|split; [reflexivity|split; [|split]]]]].
  - unfold kubernetes.Endpoint_init.
    change (api.outcome (kubernetes.refresh
                           {| kubernetes._name := kubernetes._name kube;
                              kubernetes._namespace := kubernetes._namespace kube;
                              kubernetes._endpoint := None |} w) = py.Ok absent).
    exact (refresh_api_exception (kubernetes.with_endpoint kube None) w e Hr He).
  - rewrite (tick_absent kube ext w Hk). cbv zeta.
    destruct (api.servers w); reflexivity.
  - intros servers Hs. rewrite (tick_absent kube ext w Hk). cbv zeta.
    rewrite Hs. split; reflexivity.
  - intros missing Hf Hm Hs.
    assert (Hk' : api.outcome (kubernetes.refresh kube missing) = py.Ok absent).
    { rewrite refresh_run, Hf, Hm. reflexivity. }
    rewrite Hk', Hk.
    rewrite (tick_absent kube ext w Hk), (tick_absent kube ext missing Hk').
    cbv zeta. rewrite Hs.
    destruct (api.servers w); repeat split.
Qed.

(** ** The properties on the deployment of [scenario] *)

(** Section 8, filter AND semantics. *)
Example filter_and_semantics :
  openstack._is_endpoint_server scenario.web_prod
    (scenario.instance "web-1" [("env", "staging")]) = false
  /\ openstack._is_endpoint_server scenario.web_prod
       (scenario.instance "db-1" [("env", "prod")]) = false
  /\ openstack._is_endpoint_server scenario.web_prod
       (scenario.instance "web-1" [("env", "prod")]) = true.
Proof. repeat split; vm_compute; reflexivity. Qed.

(** When several keys match one key pattern, the first in iteration order
    decides, whatever the values under the later ones. *)
Example first_matching_key_decides :
  openstack._is_endpoint_server scenario.web_prod
    (scenario.instance "web-1" [("env-a", "staging"); ("env-b", "prod")]) = false
  /\ openstack._is_endpoint_server scenario.web_prod
       (scenario.instance "web-1" [("env-b", "prod"); ("env-a", "staging")]) = true.
Proof. split; vm_compute; reflexivity. Qed.

(** Section 8, address resolution. *)
Example address_resolution :
  openstack.address
    (openstack.Endpoint_init
       (scenario.dual [("endpoint.network.name", "public");
                       ("endpoint.network.version", "4")])) = Some "10.0.0.1"
  /\ openstack.address
       (openstack.Endpoint_init
          (scenario.dual [("endpoint.network.version", "6")])) = Some "fd00::1".
Proof. split; vm_compute; reflexivity. Qed.

(** The dots of the source's key pattern match any character. *)
Example network_name_key_dots :
  re.match_ openstack.network_name_key "kube-endpoint-network-name" = true
  /\ re.match_ scenario.network_name_key_escaped "kube-endpoint-network-name" = false
  /\ re.match_ scenario.network_name_key_escaped "kube.endpoint.network.name" = true.
Proof. repeat split; vm_compute; reflexivity. Qed.

(** Section 8, round trip: after an accepted patch the store holds the
    external list. *)
Example round_trip :
  match api.outcome (main.tick scenario.kube scenario.ext scenario.reordered) with
  | py.Ok (kube', ext') => kubernetes.addresses kube' = py.Ok (external.addresses ext')
  | py.Raise _ => False
  end.
Proof. vm_compute. reflexivity. Qed.

(** C1 on the deployment: the only server listed has no IPv4 address. *)
Lemma empty_external_never_patches_witness :
  api.servers scenario.nothing_listed = py.Ok [scenario.web3]
  /\ external.addresses_of
       (openstack.endpoint_list_of (openstack._filters scenario.ext)
          [scenario.web3]) = []
  /\ api.patches (main.tick scenario.kube scenario.ext scenario.nothing_listed) = []
  /\ api.final (main.tick scenario.kube scenario.ext scenario.nothing_listed)
     = scenario.nothing_listed.
Proof.
  split; [reflexivity|]. split; [vm_compute; reflexivity|].
  apply (empty_external_never_patches scenario.kube scenario.ext
           scenario.nothing_listed [scenario.web3]);
    vm_compute; reflexivity.
Defined.

(** C2 on the deployment: no resource, two servers listed. *)
Lemma absent_resource_never_patched_witness :
  api.outcome
    (api.read_namespaced_endpoints "web" "default" scenario.no_resource)
  = py.Raise (py.ApiException 404)
  /\ api.patches (main.tick scenario.kube scenario.ext scenario.no_resource) = []
  /\ api.final (main.tick scenario.kube scenario.ext scenario.no_resource)
     = scenario.no_resource.
Proof.
  pose proof (absent_resource_never_patched scenario.kube scenario.ext
                scenario.no_resource [scenario.web1; scenario.web2]
                eq_refl eq_refl) as H.
  split; [reflexivity|].
  split; [exact (proj1 H)|exact (proj1 (proj2 H))].
Defined.

(** C3 as claimed fails: the same addresses in another order are patched. *)
Lemma reordered_lists_are_patched :
  kubernetes.addresses scenario.kube_AB = py.Ok [scenario.A; scenario.B]
  /\ external.addresses_of
       (openstack.endpoint_list_of scenario.filters [scenario.web2; scenario.web1])
     = [scenario.B; scenario.A]
  /\ Permutation [scenario.A; scenario.B] [scenario.B; scenario.A]
  /\ api.patches (main.tick scenario.kube scenario.ext scenario.reordered) <> [].
Proof.
  split; [reflexivity|]. split; [vm_compute; reflexivity|].
  split; [apply perm_swap|].
  vm_compute. discriminate.
Qed.

(** C3 as amended, on the deployment. *)
Lemma patch_iff_lists_differ_witness :
  (api.patches (main.tick scenario.kube scenario.ext scenario.reordered) <> []
   <-> [scenario.A; scenario.B] <>
       external.addresses_of
         (openstack.endpoint_list_of (openstack._filters scenario.ext)
            [scenario.web2; scenario.web1]))
  /\ (api.patches (main.tick scenario.kube scenario.ext scenario.in_sync) <> []
      <-> [scenario.A; scenario.B] <>
          external.addresses_of
            (openstack.endpoint_list_of (openstack._filters scenario.ext)
               [scenario.web1; scenario.web2])).
Proof.
  split.
  - refine (proj1 (patch_iff_lists_differ scenario.kube scenario.ext
                     scenario.reordered (scenario.endpoints [scenario.A; scenario.B])
                     [scenario.A; scenario.B] [scenario.http]
                     [scenario.web2; scenario.web1]
                     eq_refl eq_refl eq_refl eq_refl eq_refl _)).
    vm_compute. discriminate.
  - refine (proj1 (patch_iff_lists_differ scenario.kube scenario.ext
                     scenario.in_sync (scenario.endpoints [scenario.A; scenario.B])
                     [scenario.A; scenario.B] [scenario.http]
                     [scenario.web1; scenario.web2]
                     eq_refl eq_refl eq_refl eq_refl eq_refl _)).
    vm_compute. discriminate.
Defined.

(** C4 on the deployment. *)
Lemma apply_idempotent_witness :
  kubernetes.addresses scenario.kube_AB = py.Ok [scenario.A; scenario.B]
  /\ kubernetes.set_addresses scenario.kube_AB [scenario.A; scenario.B]
       scenario.in_sync
     = (py.Ok scenario.kube_AB, scenario.in_sync, []).
Proof.
  split; [reflexivity|].
  exact (proj2 (apply_idempotent scenario.kube_AB
                  (scenario.endpoints [scenario.A; scenario.B])
                  [scenario.A; scenario.B] scenario.in_sync eq_refl eq_refl)).
Defined.

(** C5 as claimed fails: the server names a network it does not have and is
    resolved from another network instead of being dropped. *)
Lemma named_network_absent_falls_back :
  re.match_ scenario.network_name_key_escaped "kube.endpoint.network.name" = true
  /\ openstack._metadata_network_name scenario.web5 = Some "public"
  /\ py.getitem "public" (sdk.addresses scenario.web5) = None
  /\ openstack.address (openstack.Endpoint_init scenario.web5) = Some "10.0.0.5"
  /\ external.addresses_of
       (openstack.endpoint_list_of scenario.filters [scenario.web5])
     = [ {| models.hostname := "web-5"; models.node_name := "node-e";
            models.ip := Some "10.0.0.5" |} ].
Proof. repeat split; vm_compute; reflexivity. Qed.

(** C5 as amended, on a server that names a network it has. *)
Lemma named_network_resolution_witness :
  openstack._metadata_network_name scenario.web4 = Some "public"
  /\ py.getitem "public" (sdk.addresses scenario.web4)
     = Some [scenario.v6 "fd00::4"; scenario.v4 "10.0.0.4"]
  /\ openstack.address (openstack.Endpoint_init scenario.web4) = Some "10.0.0.4".
Proof.
  split; [vm_compute; reflexivity|]. split; [vm_compute; reflexivity|].
  rewrite (proj1 (proj2 (named_network_resolution scenario.web4))
             "public" [scenario.v6 "fd00::4"; scenario.v4 "10.0.0.4"]).
  - vm_compute. reflexivity.
  - vm_compute. reflexivity.
  - discriminate.
  - vm_compute. reflexivity.
Defined.

(** C6 on the deployment: [web3] passes the filters, has no IPv4 address, and
    is left out between its neighbours. *)
Lemma emitted_addresses_have_ip_witness :
  openstack._is_endpoint_server scenario.filters scenario.web3 = true
  /\ external.addresses_of
       (openstack.endpoint_list_of scenario.filters
          [scenario.web1; scenario.web3; scenario.web2])
     = [scenario.A; scenario.B].
Proof.
  split; [vm_compute; reflexivity|].
  pose proof (proj2 (proj2 (emitted_addresses_have_ip scenario.filters
                              [scenario.web1; scenario.web3; scenario.web2]))
                [scenario.web1] scenario.web3 [scenario.web2] eq_refl) as H.
  assert (Hm : openstack._is_endpoint_server scenario.filters scenario.web3 = true)
    by (vm_compute; reflexivity).
  specialize (H Hm).
  assert (Ha : openstack.address (openstack.Endpoint_init scenario.web3) = None)
    by (vm_compute; reflexivity).
  rewrite Ha in H. rewrite H. vm_compute. reflexivity.
Defined.

(** C8 as claimed fails: with the provider down, the first of two scheduled
    passes raises out of [sync_loop] and the second never begins. *)
Lemma provider_failure_ends_sync_loop :
  api.outcome
    (main.sync_loop [fun w => w; fun w => w] scenario.kube scenario.ext
       (scenario.provider_down (Some (scenario.endpoints [scenario.A]))))
  = py.Raise (py.OtherError "ConnectFailure")
  /\ scenario.passes
       (api.events
          (main.sync_loop [fun w => w; fun w => w] scenario.kube scenario.ext
             (scenario.provider_down (Some (scenario.endpoints [scenario.A])))))
     = 1.
Proof. split; vm_compute; reflexivity. Qed.

(** The same with a rejected patch. *)
Example patch_failure_ends_sync_loop :
  api.outcome
    (main.sync_loop [fun w => w; fun w => w] scenario.kube scenario.ext
       (scenario.patch_conflict (Some (scenario.endpoints [scenario.A]))
          [scenario.web1; scenario.web2]))
  = py.Raise (py.ApiException 409)
  /\ scenario.passes
       (api.events
          (main.sync_loop [fun w => w; fun w => w] scenario.kube scenario.ext
             (scenario.patch_conflict (Some (scenario.endpoints [scenario.A]))
                [scenario.web1; scenario.web2])))
     = 1.
Proof. split; vm_compute; reflexivity. Qed.

(** C8 as amended, on the deployment with the provider down. *)
Lemma failures_end_the_loop_witness :
  api.servers (scenario.provider_down (Some (scenario.endpoints [scenario.A])))
  = py.Raise (py.OtherError "ConnectFailure")
  /\ api.outcome
       (main.tick scenario.kube scenario.ext
          (scenario.provider_down (Some (scenario.endpoints [scenario.A]))))
     = py.Raise (py.OtherError "ConnectFailure").
Proof.
  split; [reflexivity|].
  exact (proj1 (proj2 (proj2
           (failures_end_the_loop scenario.kube scenario.ext
              (scenario.provider_down (Some (scenario.endpoints [scenario.A]))))))
           _ [scenario.A] _ eq_refl eq_refl eq_refl).
Defined.

(** C10 on the deployment: the read is refused with status 403 although the
    resource is there. *)
Lemma api_read_error_reads_as_absent_witness :
  api.outcome
    (kubernetes.refresh scenario.kube
       (scenario.read_error 403 (Some (scenario.endpoints [scenario.A]))
          [scenario.web1; scenario.web2]))
  = py.Ok (kubernetes.with_endpoint scenario.kube None)
  /\ api.patches
       (main.tick scenario.kube scenario.ext
          (scenario.read_error 403 (Some (scenario.endpoints [scenario.A]))
             [scenario.web1; scenario.web2])) = [].
Proof.
  pose proof (api_read_error_reads_as_absent scenario.kube scenario.ext
                (scenario.read_error 403 (Some (scenario.endpoints [scenario.A]))
                   [scenario.web1; scenario.web2])
                (py.ApiException 403) eq_refl eq_refl) as H.
  split.
  - exact (proj1 (proj2 H)).
  - exact (proj1 (proj2 (proj2 (proj2 (proj2 H))))).
Defined.

(** * Further properties of the code *)

(** ** The external inventory, continued *)

Lemma getitem_In {V : Type} (k : string) (d : list (string * V)) (v : V) :
  py.getitem k d = Some v -> In (k, v) d.
Proof.
  induction d as [|[k' v'] rest IH]; simpl; [discriminate|].
  destruct (String.eqb_spec k k') as [->|_].
  - intros [= ->]. left. reflexivity.
  - intros H. right. apply IH. exact H.
Qed.

Lemma first_address_Some (v : string) (l : list sdk.address) (ip : string) :
  py.truthy v = true ->
  openstack.first_address v l = Some ip ->
  exists a, In a l /\ sdk.addr a = ip /\ sdk.version a = v.
Proof.
  intros Hv. induction l as [|a rest IH]; simpl; [discriminate|].
  unfold openstack._is_network_version. rewrite Hv. simpl.
  destruct (String.eqb_spec v (sdk.version a)) as [E|_].
  - intros [= <-]. exists a. auto.
  - intros H. destruct (IH H) as [b [Hb Hab]]. exists b. auto.
Qed.

Lemma first_address_None (v : string) (l : list sdk.address) :
  py.truthy v = true ->
  (openstack.first_address v l = None <->
   forall a, In a l -> sdk.version a <> v).
Proof.
  intros Hv. induction l as [|a rest IH]; simpl.
  - split; [intros _ a []|reflexivity].
  - unfold openstack._is_network_version. rewrite Hv. simpl.
    destruct (String.eqb_spec v (sdk.version a)) as [E|N].
    + split; [discriminate|]. intros H. exfalso.
      apply (H a (or_introl eq_refl)). symmetry. exact E.
    + rewrite IH. split.
      * intros H b [<-|Hb]; [congruence|apply H; exact Hb].
      * intros H b Hb. apply H. right. exact Hb.
Qed.

Lemma In_concat_values (d : list (string * list sdk.address)) (a : sdk.address) :
  In a (List.concat (py.values d)) <-> exists net l, In (net, l) d /\ In a l.
Proof.
  unfold py.values. rewrite in_concat. split.
  - intros [l [Hl Ha]]. apply in_map_iff in Hl as [[net l'] [E Hd]].
    simpl in E. subst l'. exists net, l. auto.
  - intros [net [l [Hd Ha]]]. exists l. split; [|exact Ha].
    apply in_map_iff. exists (net, l). auto.
Qed.

(** What [_network_address] comes to on each side of its test. *)
Lemma _network_address_named
  (server : sdk.Server) (v n : string) (l : list sdk.address) :
  openstack._has_named_network server = true ->
  openstack._metadata_network_name server = Some n ->
  py.getitem n (sdk.addresses server) = Some l ->
  openstack._network_address server v = openstack.first_address v l.
Proof.
  intros H Hn Hl. unfold openstack._network_address. rewrite H, Hn, Hl.
  reflexivity.
Qed.

Lemma _network_address_any (server : sdk.Server) (v : string) :
  openstack._has_named_network server = false ->
  openstack._network_address server v =
  openstack.first_address v (List.concat (py.values (sdk.addresses server))).
Proof.
  intros H. unfold openstack._network_address. rewrite H.
  apply first_address_any_concat.
Qed.

Lemma _has_named_network_true (server : sdk.Server) :
  openstack._has_named_network server = true ->
  exists n l, openstack._metadata_network_name server = Some n
              /\ py.getitem n (sdk.addresses server) = Some l.
Proof.
  unfold openstack._has_named_network.
  destruct (openstack._metadata_network_name server) as [n|]; [|discriminate].
  destruct (negb (py.truthy n)); [discriminate|].
  rewrite contains_getitem.
  destruct (py.getitem n (sdk.addresses server)) as [l|] eqn:E; [|discriminate].
  intros _. exists n, l. split; [reflexivity|exact E].
Qed.

(** [_endpoint_list] keeps the servers that pass the filters and resolve an
    address, in the order the provider listed them, one endpoint each. *)
Theorem endpoint_list_keeps_provider_order
  (filters : list openstack.filter) (servers : list sdk.Server) :
  let kept := filter (fun s => openstack._is_endpoint_server filters s
                               && openstack.has_address (openstack.Endpoint_init s))
                     servers in
  openstack.endpoint_list_of filters servers = map openstack.Endpoint_init kept
  /\ map models.hostname
         (external.addresses_of (openstack.endpoint_list_of filters servers))
     = map sdk.name kept
  /\ List.length (external.addresses_of (openstack.endpoint_list_of filters servers))
     <= List.length servers.
Proof.
  intros kept.
  assert (H1 : openstack.endpoint_list_of filters servers =
               map openstack.Endpoint_init kept).
  { unfold kept. induction servers as [|s rest IH]; simpl; [reflexivity|].
    destruct (openstack._is_endpoint_server filters s); simpl; [|exact IH].
    destruct (openstack.has_address (openstack.Endpoint_init s)); simpl;
      [rewrite IH; reflexivity|exact IH]. }
  assert (H2 : forall l, map models.hostname
                           (external.addresses_of (map openstack.Endpoint_init l))
                         = map sdk.name l).
  { induction l as [|s rest IH]; simpl; [reflexivity|]. rewrite IH. reflexivity. }
  assert (H3 : forall l, List.length (external.addresses_of l) = List.length l).
  { induction l as [|e rest IH]; simpl; [reflexivity|]. rewrite IH. reflexivity. }
  split; [exact H1|]. split.
  - rewrite H1. apply H2.
  - rewrite H3, H1, length_map. apply filter_length_le.
Qed.

(** The inventory is false exactly when no listed server both passes the
    filters and resolves an address. *)
Theorem inventory_bool_iff_some_server_kept
  (self : openstack.Endpoints) (servers : list sdk.Server) :
  external.__bool__
    (openstack.with_endpoints self
       (openstack.endpoint_list_of (openstack._filters self) servers))
  = existsb (fun s => openstack._is_endpoint_server (openstack._filters self) s
                      && openstack.has_address (openstack.Endpoint_init s))
            servers.
Proof.
  unfold external.__bool__, external.addresses. simpl.
  induction servers as [|s rest IH]; simpl; [reflexivity|].
  destruct (openstack._is_endpoint_server (openstack._filters self) s); simpl;
    [|exact IH].
  destruct (openstack.has_address (openstack.Endpoint_init s)); simpl;
    [reflexivity|exact IH].
Qed.

(** A resolved address is one of the server's own entries, and of the
    version the endpoint looks for. *)
Theorem resolved_address_is_own_entry (server : sdk.Server) (ip : string) :
  openstack.address (openstack.Endpoint_init server) = Some ip ->
  exists net l a,
    In (net, l) (sdk.addresses server) /\ In a l
    /\ sdk.addr a = ip
    /\ sdk.version a = openstack._network_version (openstack.Endpoint_init server).
Proof.
  pose proof (or_else_truthy (openstack._metadata_network_version server)) as Hv.
  unfold openstack.address. simpl.
  destruct (openstack._has_named_network server) eqn:Hn.
  - destruct (_has_named_network_true server Hn) as [n [l [H1 H2]]].
    rewrite (_network_address_named server _ n l Hn H1 H2). intros H.
    destruct (first_address_Some _ _ _ Hv H) as [a [Ha [Hip Hver]]].
    exists n, l, a. split; [apply getitem_In; exact H2|auto].
  - rewrite (_network_address_any server _ Hn). intros H.
    destruct (first_address_Some _ _ _ Hv H) as [a [Ha [Hip Hver]]].
    apply In_concat_values in Ha as [net [l [Hd Hl]]].
    exists net, l, a. auto.
Qed.

(** When the named network is there, the other networks do not count: the
    server has no address exactly when the named network has no entry of the
    target version. Otherwise it has none exactly when no network has one. *)
Theorem no_address_iff (server : sdk.Server) :
  let e := openstack.Endpoint_init server in
  let v := openstack._network_version e in
  (forall n l,
      openstack._has_named_network server = true ->
      openstack._metadata_network_name server = Some n ->
      py.getitem n (sdk.addresses server) = Some l ->
      (openstack.address e = None <-> forall a, In a l -> sdk.version a <> v))
  /\ (openstack._has_named_network server = false ->
      (openstack.address e = None <->
       forall net l a, In (net, l) (sdk.addresses server) -> In a l ->
                       sdk.version a <> v)).
Proof.
  intros e v.
  pose proof (or_else_truthy (openstack._metadata_network_version server)) as Hv.
  split.
  - intros n l Hn H1 H2. unfold openstack.address, e. simpl.
    rewrite (_network_address_named server _ n l Hn H1 H2).
    apply first_address_None. exact Hv.
  - intros Hn. unfold openstack.address, e. simpl.
    rewrite (_network_address_any server _ Hn).
    rewrite (first_address_None _ _ Hv). split.
    + intros H net l a Hd Ha. apply H. apply In_concat_values. eauto.
    + intros H a Ha. apply In_concat_values in Ha as [net [l [Hd Hl]]]. eauto.
Qed.

(** The version an endpoint looks for is never empty: it is the value under
    the first metadata key matching [.*endpoint.network.version$], and ["4"]
    without such a key or with an empty value. So the version test of
    [_is_network_version] is always a comparison. *)
Theorem target_version_default (server : sdk.Server) :
  let v := openstack._network_version (openstack.Endpoint_init server) in
  v <> ""
  /\ (forall a, openstack._is_network_version v a = String.eqb v (sdk.version a))
  /\ (openstack._metadata_network_version server = None
      \/ openstack._metadata_network_version server = Some "" -> v = "4")
  /\ (forall x, openstack._metadata_network_version server = Some x ->
                x <> "" -> v = x).
Proof.
  intros v.
  pose proof (or_else_truthy (openstack._metadata_network_version server)) as Hv.
  split; [apply truthy_nonempty; exact Hv|]. split; [|split].
  - intros a. unfold openstack._is_network_version.
    change (py.truthy v = true) in Hv. rewrite Hv. reflexivity.
  - unfold v. simpl. intros [H|H]; rewrite H; reflexivity.
  - unfold v. simpl. intros x H Hx. rewrite H. simpl.
    apply truthy_nonempty in Hx. rewrite Hx. reflexivity.
Qed.

(** ** The filter rules, continued *)

Lemma _is_endpoint_server_cons
  (rule : openstack.filter) (rest : list openstack.filter) (server : sdk.Server) :
  openstack._is_endpoint_server (rule :: rest) server =
  FilterMatcher.category_passes server rule
  && openstack._is_endpoint_server rest server.
Proof.
  destruct rule as [p|pairs|key]; simpl.
  - unfold openstack._filter_server_name.
    destruct (re.match_ p (sdk.name server)); reflexivity.
  - rewrite _filter_server_metadata_forallb.
    destruct (forallb (FilterMatcher.pair_passes (sdk.metadata server)) pairs);
      reflexivity.
  - reflexivity.
Qed.

Lemma _is_endpoint_server_app
  (r1 r2 : list openstack.filter) (server : sdk.Server) :
  openstack._is_endpoint_server (r1 ++ r2) server =
  openstack._is_endpoint_server r1 server
  && openstack._is_endpoint_server r2 server.
Proof.
  induction r1 as [|rule rest IH]; [reflexivity|].
  rewrite <- app_comm_cons, !_is_endpoint_server_cons, IH.
  apply andb_assoc.
Qed.

Lemma forallb_permutation {A : Type} (f : A -> bool) (l l' : list A) :
  Permutation l l' -> forallb f l = forallb f l'.
Proof.
  induction 1 as [|x l l' _ IH|x y l|l l' l'' _ IH1 _ IH2]; simpl.
  - reflexivity.
  - rewrite IH. reflexivity.
  - destruct (f x), (f y); reflexivity.
  - congruence.
Qed.

(** The verdict on a server does not depend on the order in which the
    [filters] dict, or the dict of metadata patterns, is iterated; and the
    filters of two dicts put together select what both select. *)
Theorem filter_order_irrelevant (server : sdk.Server) :
  (forall rules rules',
      Permutation rules rules' ->
      openstack._is_endpoint_server rules server =
      openstack._is_endpoint_server rules' server)
  /\ (forall pairs pairs',
         Permutation pairs pairs' ->
         openstack._filter_server_metadata server pairs =
         openstack._filter_server_metadata server pairs')
  /\ (forall r1 r2,
         openstack._is_endpoint_server (r1 ++ r2) server =
         openstack._is_endpoint_server r1 server
         && openstack._is_endpoint_server r2 server).
Proof.
  split; [|split].
  - induction 1 as [|x l l' _ IH|x y l|l l' l'' _ IH1 _ IH2].
    + reflexivity.
    + rewrite !_is_endpoint_server_cons, IH. reflexivity.
    + rewrite !_is_endpoint_server_cons.
      destruct (FilterMatcher.category_passes server x),
               (FilterMatcher.category_passes server y); reflexivity.
    + congruence.
  - intros pairs pairs' H. rewrite !_filter_server_metadata_forallb.
    apply forallb_permutation. exact H.
  - intros r1 r2. apply _is_endpoint_server_app.
Qed.

(** A filter key without a [_filter_server_<key>] method is skipped: it can
    be removed without changing any verdict, and filters made of such keys
    only select every server. *)
Theorem unknown_filter_keys_are_skipped
  (rules : list openstack.filter) (server : sdk.Server) :
  let known := fun r => match r with
                        | openstack.filter_other _ => false
                        | _ => true
                        end in
  openstack._is_endpoint_server rules server =
  openstack._is_endpoint_server (filter known rules) server
  /\ (filter known rules = [] ->
      openstack._is_endpoint_server rules server = true).
Proof.
  intros known.
  assert (H : openstack._is_endpoint_server rules server =
              openstack._is_endpoint_server (filter known rules) server).
  { induction rules as [|rule rest IH]; [reflexivity|].
    destruct rule as [p|pairs|key].
    - change (filter known (openstack.filter_name p :: rest))
        with (openstack.filter_name p :: filter known rest).
      rewrite !_is_endpoint_server_cons, IH. reflexivity.
    - change (filter known (openstack.filter_metadata pairs :: rest))
        with (openstack.filter_metadata pairs :: filter known rest).
      rewrite !_is_endpoint_server_cons, IH. reflexivity.
    - exact IH. }
  split; [exact H|]. intros E. rewrite H, E. reflexivity.
Qed.

(** A metadata filter with at least one pattern pair rejects every server
    that has no metadata: a key must be present for each pair. *)
Theorem server_without_metadata_is_rejected
  (rules : list openstack.filter) (pairs : list (re.regex * re.regex))
  (server : sdk.Server) :
  sdk.metadata server = [] ->
  pairs <> [] ->
  In (openstack.filter_metadata pairs) rules ->
  openstack._is_endpoint_server rules server = false.
Proof.
  intros Hm Hp Hin.
  apply in_split in Hin as [r1 [r2 ->]].
  rewrite _is_endpoint_server_app, _is_endpoint_server_cons.
  simpl FilterMatcher.category_passes. rewrite Hm.
  destruct pairs as [|[k v] rest]; [contradiction|].
  simpl. apply andb_false_r.
Qed.

(** ** Patterns *)



Lemma accept_lit_prefix (p s : string) (b : bool) :
  re.accept (re.lit p) b s (fun _ _ => true) = String.prefix p s.
Proof.
  revert b s. induction p as [|c p IH]; intros b s; simpl.
  - destruct s; reflexivity.
  - destruct s as [|c' s']; [reflexivity|].
    destruct (Ascii.eqb_spec c c') as [->|N]; simpl.
    + rewrite IH. destruct (ascii_dec c' c'); [reflexivity|contradiction].
    + destruct (ascii_dec c c'); [contradiction|reflexivity].
Qed.


(** A pattern that is a literal text selects by prefix: [re.match] anchors at
    the start only, so the name filter ["web"] takes [web-1] and [website]
    and leaves [myweb]. *)
Theorem literal_name_filter_is_prefix_test (server : sdk.Server) (p : string) :
  openstack._filter_server_name server (re.lit p) =
  String.prefix p (sdk.name server).
Proof. apply accept_lit_prefix. Qed.




(** ** The cluster endpoint store, continued *)


(** The setter on a snapshot whose addresses differ from the candidate. *)
Lemma set_addresses_differs
  (self : kubernetes.Endpoint) (ep : models.V1Endpoints)
  (current value : list models.V1EndpointAddress) (w : api.world) :
  kubernetes._endpoint self = Some ep ->
  kubernetes.addresses self = py.Ok current ->
  models.list_eqb current value = false ->
  kubernetes.set_addresses self value w =
  match kubernetes.ports self with
  | py.Raise e => (py.Raise e, w, [])
  | py.Ok ps =>
      let body := [ {| models.addresses := Some value; models.ports := Some ps |} ] in
      let pc := api.patch_call (kubernetes.name self) (kubernetes.namespace self)
                  body
                  ("kube-endpoint-manager-"
                     ++ kubernetes.str (kubernetes.namespace self)
                     ++ "-" ++ kubernetes.str (kubernetes.name self)) in
      match api.patch_fault w with
      | Some e => (py.Raise e, w, [pc])
      | None =>
          match api.resource w with
          | None => (py.Raise (py.ApiException 404), w, [pc])
          | Some ep0 =>
              let w' := api.set_resource w
                          (Some {| models.metadata := models.metadata ep0;
                                   models.subsets := Some body |}) in
              (api.outcome (kubernetes.refresh self w'), w',
               [pc; api.read_call (kubernetes._name self)
                      (kubernetes._namespace self)])
          end
      end
  end.
Proof.
  intros He Ha Hne.
  unfold kubernetes.set_addresses, kubernetes.__bool__. rewrite He.
  unfold api.bind at 1. unfold api.lift at 1.
  unfold kubernetes.diff. rewrite He, Ha.
  rewrite truthy_diff, Hne. cbn [negb].
  unfold api.bind at 1. unfold kubernetes._patch_addresses.
  unfold api.bind at 1. unfold api.lift at 1.
  destruct (kubernetes.ports self) as [ps|e]; [|reflexivity].
  unfold api.patch_namespaced_endpoints.
  destruct (api.patch_fault w) as [e|]; [reflexivity|].
  destruct (api.resource w) as [ep0|]; [|reflexivity].
  rewrite refresh_shape. reflexivity.
Qed.


(** Whatever the store and the cluster are, an apply does one of three
    things: no call at all; one patch call that fails and changes nothing;
    or one accepted patch followed by one read. *)
Theorem apply_calls
  (self : kubernetes.Endpoint) (value : list models.V1EndpointAddress)
  (w : api.world) :
  let run := kubernetes.set_addresses self value w in
  (api.events run = [] /\ api.final run = w)
  \/ (exists p e, api.events run = [p] /\ api.is_patch p = true
                  /\ api.outcome run = py.Raise e /\ api.final run = w)
  \/ (exists p ep',
         api.events run =
         [p; api.read_call (kubernetes._name self) (kubernetes._namespace self)]
         /\ api.is_patch p = true
         /\ api.final run = api.set_resource w (Some ep')).
Proof.
  intros run. unfold run.
  destruct (kubernetes._endpoint self) as [ep|] eqn:He.
  2:{ left. unfold kubernetes.set_addresses, kubernetes.__bool__. rewrite He.
      split; reflexivity. }
  destruct (kubernetes.addresses self) as [current|e] eqn:Ha.
  2:{ left. unfold kubernetes.set_addresses, kubernetes.__bool__. rewrite He.
      unfold api.bind, api.lift, kubernetes.diff. rewrite He, Ha.
      split; reflexivity. }
  destruct (models.list_eqb current value) eqn:E.
  - left. unfold kubernetes.set_addresses, kubernetes.__bool__. rewrite He.
    unfold api.bind, api.lift, kubernetes.diff. rewrite He, Ha.
    rewrite truthy_diff, E. split; reflexivity.
  - rewrite (set_addresses_differs self ep current value w He Ha E).
    destruct (kubernetes.ports self) as [ps|e]; [|left; split; reflexivity].
    cbv zeta.
    destruct (api.patch_fault w) as [e|].
    { right. left. eexists. exists e. repeat split. }
    destruct (api.resource w) as [ep0|].
    + right. right. eexists. eexists. repeat split.
    + right. left. eexists. eexists. repeat split.
Qed.

(** A refresh of the store forgets the snapshot it had: it makes one read
    under the configured name and namespace, leaves the cluster alone, keeps
    name and namespace, and holds what the read returned, or nothing when
    the read raised an API exception. *)
Theorem store_refresh_replaces_snapshot
  (self : kubernetes.Endpoint) (snapshot : option models.V1Endpoints)
  (w : api.world) :
  kubernetes.refresh (kubernetes.with_endpoint self snapshot) w
  = kubernetes.refresh self w
  /\ api.final (kubernetes.refresh self w) = w
  /\ api.events (kubernetes.refresh self w)
     = [api.read_call (kubernetes._name self) (kubernetes._namespace self)]
  /\ (forall self',
         api.outcome (kubernetes.refresh self w) = py.Ok self' ->
         kubernetes._name self' = kubernetes._name self
         /\ kubernetes._namespace self' = kubernetes._namespace self
         /\ kubernetes._endpoint self' =
            match api.read_fault w with
            | None => api.resource w
            | Some _ => None
            end).
Proof.
  rewrite !refresh_run. simpl.
  destruct (api.read_fault w) as [e|]; [destruct (py.is_api_exception e)|];
    (split; [reflexivity|]); (split; [reflexivity|]); (split; [reflexivity|]);
    intros self' E; simpl in E; try discriminate E;
    injection E as <-; repeat split.
Qed.

(** A refresh of the inventory replaces the endpoint list wholesale: the old
    list plays no part, one listing is made, the filters stay, and doing it
    again on the same provider state gives the same object. The constructor
    does the same from the filters alone. *)
Theorem inventory_refresh_replaces_list
  (self : openstack.Endpoints) (old : list openstack.Endpoint) (w : api.world) :
  openstack.refresh (openstack.with_endpoints self old) w
  = openstack.refresh self w
  /\ api.final (openstack.refresh self w) = w
  /\ api.events (openstack.refresh self w) = [api.servers_call]
  /\ openstack.Endpoints_init (openstack._filters self) w
     = openstack.refresh self w
  /\ (forall self',
         api.outcome (openstack.refresh self w) = py.Ok self' ->
         openstack._filters self' = openstack._filters self
         /\ openstack.refresh self' w = openstack.refresh self w).
Proof.
  assert (H : openstack.Endpoints_init (openstack._filters self) w
              = openstack.refresh self w).
  { unfold openstack.Endpoints_init, openstack.refresh, openstack._endpoint_list,
      api.bind, api.compute_servers, api.ret. simpl.
    destruct (api.servers w); reflexivity. }
  split; [rewrite !refresh_external_run; reflexivity|].
  split; [rewrite refresh_external_run; destruct (api.servers w); reflexivity|].
  split; [rewrite refresh_external_run; destruct (api.servers w); reflexivity|].
  split; [exact H|].
  intros self' E. rewrite refresh_external_run in E.
  destruct (api.servers w) as [servers|e] eqn:Hs; simpl in E; [|discriminate E].
  injection E as <-. split; [reflexivity|].
  rewrite !refresh_external_run, Hs. reflexivity.
Qed.

(** ** The loop, continued *)

Lemma count_app (p : api.event -> bool) (l1 l2 : list api.event) :
  observe.count p (l1 ++ l2) = observe.count p l1 + observe.count p l2.
Proof. unfold observe.count. rewrite filter_app, length_app. reflexivity. Qed.

Lemma __bool__true (self : kubernetes.Endpoint) :
  kubernetes.__bool__ self = true ->
  exists ep, kubernetes._endpoint self = Some ep.
Proof.
  unfold kubernetes.__bool__.
  destruct (kubernetes._endpoint self) as [ep|]; [eauto|discriminate].
Qed.

(** The calls and log lines of one pass, counted. *)
Lemma tick_counts
  (kube : kubernetes.Endpoint) (ext : openstack.Endpoints) (w : api.world) :
  let evs := api.events (main.tick kube ext w) in
  observe.count observe.is_pass evs = 1
  /\ observe.count observe.is_sleep evs = 0
  /\ observe.count observe.is_start evs = 0
  /\ observe.count api.is_patch evs <= 1
  /\ 1 <= observe.count observe.is_read evs <= 2
  /\ observe.count observe.is_listing evs <= 1
  /\ (observe.count observe.is_read evs = 2 ->
      observe.count api.is_patch evs = 1
      /\ observe.count observe.is_listing evs = 1).
Proof.
  rewrite tick_run. cbv zeta.
  destruct (api.outcome (kubernetes.refresh kube w)) as [kube1|e];
    [|cbv; repeat split; lia].
  destruct (kubernetes.addresses kube1) as [fetched|e] eqn:Ha;
    [|cbv; repeat split; lia].
  destruct (api.servers w) as [servers|e]; [|cbv; repeat split; lia].
  destruct (kubernetes.__bool__ kube1) eqn:Hb; cbn [negb];
    [|cbv; repeat split; lia].
  destruct (external.__bool__ _); cbn [negb]; [|cbv; repeat split; lia].
  destruct (models.list_eqb fetched _) eqn:E; cbn [negb];
    [cbv; repeat split; lia|].
  destruct (__bool__true kube1 Hb) as [ep He].
  rewrite (update_run kube1 _ w ep fetched _ He Ha E). cbv zeta.
  destruct (kubernetes.ports kube1) as [ps|e]; [|cbv; repeat split; lia].
  destruct (api.patch_fault w) as [e|]; [cbv; repeat split; lia|].
  destruct (api.resource w) as [ep0|]; [|cbv; repeat split; lia].
  match goal with
  | |- context [kubernetes.refresh kube1 ?w'] =>
      destruct (api.outcome (kubernetes.refresh kube1 w')) as [kube2|e]
  end; [|cbv; repeat split; lia].
  destruct (kubernetes.addresses kube2); cbv; repeat split; lia.
Qed.

(** One pass costs the cluster at most one patch and at most two reads, and
    the provider at most one listing; the pass always begins with a read, and
    a second read happens only after the patch. *)
Theorem tick_call_budget
  (kube : kubernetes.Endpoint) (ext : openstack.Endpoints) (w : api.world) :
  let evs := api.events (main.tick kube ext w) in
  observe.count api.is_patch evs <= 1
  /\ 1 <= observe.count observe.is_read evs <= 2
  /\ observe.count observe.is_listing evs <= 1
  /\ (observe.count observe.is_read evs = 2 ->
      observe.count api.is_patch evs = 1
      /\ observe.count observe.is_listing evs = 1).
Proof.
  pose proof (tick_counts kube ext w) as H. cbv zeta in *. tauto.
Qed.

Lemma loop_counts
  (schedule : list (api.world -> api.world))
  (kube : kubernetes.Endpoint) (ext : openstack.Endpoints) (w : api.world) :
  let run := main.loop schedule kube ext w in
  observe.count observe.is_start (api.events run) = 0
  /\ observe.count observe.is_sleep (api.events run)
     = observe.count observe.is_pass (api.events run)
  /\ observe.count observe.is_pass (api.events run) <= List.length schedule
  /\ (forall objects, api.outcome run = py.Ok objects ->
      observe.count observe.is_pass (api.events run) = List.length schedule).
Proof.
  revert kube ext w.
  induction schedule as [|env rest IH]; intros kube ext w.
  - cbv. repeat split; lia.
  - cbv zeta. rewrite loop_step.
    pose proof (tick_counts kube ext (env w)) as Ht. cbv zeta in Ht.
    destruct Ht as [Hp [Hs [Hst _]]].
    destruct (main.tick kube ext (env w)) as [[[objects|e] w1] evs].
    + specialize (IH (fst objects) (snd objects) w1). cbv zeta in IH.
      destruct (main.loop rest (fst objects) (snd objects) w1) as [[r w2] evs2].
      unfold api.events, api.outcome in *. cbn [fst snd] in *.
      destruct IH as [I1 [I2 [I3 I4]]].
      change (api.sleep_call :: evs ++ evs2) with ([api.sleep_call] ++ evs ++ evs2).
      rewrite !count_app, Hp, Hs, Hst, I1, I2.
      change (observe.count observe.is_start [api.sleep_call]) with 0.
      change (observe.count observe.is_sleep [api.sleep_call]) with 1.
      change (observe.count observe.is_pass [api.sleep_call]) with 0.
      cbn [List.length].
      repeat split; try lia.
      intros objects' Hr. rewrite (I4 objects' Hr). lia.
    + unfold api.events, api.outcome in *. cbn [fst snd] in *.
      change (api.sleep_call :: evs) with ([api.sleep_call] ++ evs).
      rewrite !count_app, Hp, Hs, Hst.
      change (observe.count observe.is_start [api.sleep_call]) with 0.
      change (observe.count observe.is_sleep [api.sleep_call]) with 1.
      change (observe.count observe.is_pass [api.sleep_call]) with 0.
      cbn [List.length].
      repeat split; try lia. intros objects' Hr. discriminate Hr.
Qed.

Lemma sync_loop_run
  (schedule : list (api.world -> api.world))
  (kube : kubernetes.Endpoint) (ext : openstack.Endpoints) (w : api.world) :
  main.sync_loop schedule kube ext w =
  match main.loop schedule kube ext w with
  | (r, w1, evs) => (r, w1, api.log_info api.Starting_sync_loop :: evs)
  end.
Proof.
  unfold main.sync_loop, api.bind, api.info, api.emit.
  destruct (main.loop schedule kube ext w) as [[r w1] evs]. reflexivity.
Qed.

(** [sync_loop] logs its start once, sleeps before every pass, the first
    included, and begins one pass per scheduled sleep until a pass raises: a
    run that returns has made them all. *)
Theorem sync_loop_sleeps_before_each_pass
  (schedule : list (api.world -> api.world))
  (kube : kubernetes.Endpoint) (ext : openstack.Endpoints) (w : api.world) :
  let run := main.sync_loop schedule kube ext w in
  observe.count observe.is_start (api.events run) = 1
  /\ observe.count observe.is_sleep (api.events run)
     = observe.count observe.is_pass (api.events run)
  /\ observe.count observe.is_pass (api.events run) <= List.length schedule
  /\ (forall objects, api.outcome run = py.Ok objects ->
      observe.count observe.is_pass (api.events run) = List.length schedule)
  /\ (observe.count observe.is_pass (api.events run) < List.length schedule ->
      exists e, api.outcome run = py.Raise e).
Proof.
  cbv zeta. rewrite sync_loop_run.
  pose proof (loop_counts schedule kube ext w) as H. cbv zeta in H.
  destruct (main.loop schedule kube ext w) as [[r w1] evs].
  unfold api.events, api.outcome in *. cbn [fst snd] in *.
  destruct H as [H1 [H2 [H3 H4]]].
  change (api.log_info api.Starting_sync_loop :: evs)
    with ([api.log_info api.Starting_sync_loop] ++ evs).
  rewrite !count_app, H1, H2.
  change (observe.count observe.is_start [api.log_info api.Starting_sync_loop])
    with 1.
  change (observe.count observe.is_sleep [api.log_info api.Starting_sync_loop])
    with 0.
  change (observe.count observe.is_pass [api.log_info api.Starting_sync_loop])
    with 0.
  repeat split; try lia.
  - intros objects Hr. rewrite (H4 objects Hr). lia.
  - intros Hlt. destruct r as [objects|e]; [|eauto].
    specialize (H4 objects eq_refl). lia.
Qed.







(** ** The singleton metaclass and the API client *)


Lemma getitem_app_last {V : Type} (k k' : string) (v : V) (d : list (string * V)) :
  py.getitem k (d ++ [(k', v)]) =
  match py.getitem k d with
  | Some x => Some x
  | None => if String.eqb k k' then Some v else None
  end.
Proof.
  induction d as [|[k0 v0] rest IH]; simpl; [reflexivity|].
  destruct (String.eqb k k0); [reflexivity|exact IH].
Qed.

(** Once a class has its instance, every later call returns that instance
    whatever would be constructed now, even where constructing would raise;
    the instances of the other classes are untouched; and a construction that
    raises leaves no instance behind, so the next call constructs again. *)
Theorem singleton_returns_first_instance
  (instance : Type) (cls : string) (first : py.result instance)
  (instances : common.registry instance) (i : instance)
  (instances' : common.registry instance) :
  common.__call__ instance cls first instances = (py.Ok i, instances') ->
  (forall later, common.__call__ instance cls later instances'
                 = (py.Ok i, instances'))
  /\ py.getitem cls instances' = Some i
  /\ (forall cls', cls' <> cls ->
                   py.getitem cls' instances' = py.getitem cls' instances)
  /\ (forall cls' e, py.contains cls' instances' = false ->
                     common.__call__ instance cls' (py.Raise e) instances'
                     = (py.Raise e, instances')).
Proof.
  unfold common.__call__. intros H.
  assert (Hg : py.getitem cls instances' = Some i
               /\ forall cls', cls' <> cls ->
                    py.getitem cls' instances' = py.getitem cls' instances).
  { destruct (py.contains cls instances) eqn:C; cbn [negb] in H.
    - destruct (py.getitem cls instances) as [i0|] eqn:G; [|discriminate].
      injection H as -> ->. split; [exact G|reflexivity].
    - destruct first as [i0|e]; [|discriminate].
      injection H as -> <-. rewrite contains_getitem in C.
      split.
      + rewrite getitem_app_last.
        destruct (py.getitem cls instances); [discriminate|].
        rewrite String.eqb_refl. reflexivity.
      + intros cls' N. rewrite getitem_app_last.
        destruct (py.getitem cls' instances); [reflexivity|].
        destruct (String.eqb_spec cls' cls); [contradiction|reflexivity]. }
  destruct Hg as [Hg Ho].
  split; [|split; [exact Hg|split; [exact Ho|]]].
  - intros later. rewrite contains_getitem, Hg. reflexivity.
  - intros cls' e C. rewrite C. reflexivity.
Qed.


(** ** The factory and [main] *)

Lemma lower_char_idempotent (c : ascii) :
  startup.lower_char (startup.lower_char c) = startup.lower_char c.
Proof.
  destruct c as [[] [] [] [] [] [] [] []]; vm_compute; reflexivity.
Qed.

Lemma lower_idempotent (s : string) : startup.lower (startup.lower s) = startup.lower s.
Proof.
  induction s as [|c s IH]; simpl; [reflexivity|].
  rewrite lower_char_idempotent, IH. reflexivity.
Qed.

Lemma Endpoints_init_run (filters : list openstack.filter) (w : api.world) :
  openstack.Endpoints_init filters w =
  match api.servers w with
  | py.Ok servers =>
      (py.Ok {| openstack._filters := filters;
                openstack._endpoints := openstack.endpoint_list_of filters servers |},
       w, [api.servers_call])
  | py.Raise e => (py.Raise e, w, [api.servers_call])
  end.
Proof.
  unfold openstack.Endpoints_init, openstack._endpoint_list.
  unfold api.bind, api.compute_servers, api.ret. simpl.
  destruct (api.servers w); reflexivity.
Qed.

(** On a type name of ASCII characters, the factory looks at the name in
    lower case only. A name that is not [openstack] in some mix of cases
    gives [None]: no exception and no call to the provider. Otherwise the
    inventory is built with one listing, and a listing that raises makes the
    factory raise. *)
Theorem factory_by_lowercase_name
  (_type : string) (filters : list openstack.filter) (w : api.world) :
  startup.ascii_only _type = true ->
  startup.is_my_type (startup.lower _type) = startup.is_my_type _type
  /\ (startup.lower _type <> "openstack" ->
      startup.factory _type filters w = (py.Ok None, w, []))
  /\ (startup.lower _type = "openstack" ->
      startup.factory _type filters w =
      match api.servers w with
      | py.Ok servers =>
          (py.Ok (Some {| openstack._filters := filters;
                          openstack._endpoints :=
                            openstack.endpoint_list_of filters servers |}),
           w, [api.servers_call])
      | py.Raise e => (py.Raise e, w, [api.servers_call])
      end).
Proof.
  intros _. split; [|split].
  - unfold startup.is_my_type. rewrite lower_idempotent. reflexivity.
  - intros H. unfold startup.factory, startup.is_my_type.
    destruct (String.eqb_spec (startup.lower _type) "openstack");
      [contradiction|reflexivity].
  - intros H. unfold startup.factory, startup.is_my_type. rewrite H.
    rewrite String.eqb_refl.
    unfold api.bind. rewrite Endpoints_init_run.
    destruct (api.servers w); reflexivity.
Qed.




(** ** The further properties on the deployment of [scenario] and [boot] *)

Lemma resolved_address_is_own_entry_witness :
  openstack.address (openstack.Endpoint_init scenario.web4) = Some "10.0.0.4"
  /\ exists net l a,
       In (net, l) (sdk.addresses scenario.web4) /\ In a l
       /\ sdk.addr a = "10.0.0.4"
       /\ sdk.version a
          = openstack._network_version (openstack.Endpoint_init scenario.web4).
Proof.
  split; [vm_compute; reflexivity|].
  apply (resolved_address_is_own_entry scenario.web4 "10.0.0.4").
  vm_compute. reflexivity.
Defined.

Lemma no_address_iff_witness :
  openstack._has_named_network scenario.web3 = false
  /\ (openstack.address (openstack.Endpoint_init scenario.web3) = None <->
      forall net l a, In (net, l) (sdk.addresses scenario.web3) -> In a l ->
                      sdk.version a
                      <> openstack._network_version
                           (openstack.Endpoint_init scenario.web3)).
Proof.
  split; [vm_compute; reflexivity|].
  apply (proj2 (no_address_iff scenario.web3)). vm_compute. reflexivity.
Defined.

Lemma target_version_default_witness :
  openstack._metadata_network_version scenario.web1 = None
  /\ openstack._network_version (openstack.Endpoint_init scenario.web1) = "4".
Proof.
  split; [vm_compute; reflexivity|].
  apply (proj1 (proj2 (proj2 (target_version_default scenario.web1)))).
  left. vm_compute. reflexivity.
Defined.

Lemma filter_order_irrelevant_witness :
  Permutation scenario.web_prod (rev scenario.web_prod)
  /\ openstack._is_endpoint_server scenario.web_prod scenario.web1
     = openstack._is_endpoint_server (rev scenario.web_prod) scenario.web1.
Proof.
  split; [apply Permutation_rev|].
  apply (proj1 (filter_order_irrelevant scenario.web1)). apply Permutation_rev.
Defined.

Lemma unknown_filter_keys_are_skipped_witness :
  openstack._is_endpoint_server [openstack.filter_other "flavor"] scenario.web1
  = true.
Proof.
  apply (proj2 (unknown_filter_keys_are_skipped
                  [openstack.filter_other "flavor"] scenario.web1)).
  reflexivity.
Defined.

Lemma server_without_metadata_is_rejected_witness :
  sdk.metadata (scenario.instance "web-1" []) = []
  /\ openstack._is_endpoint_server scenario.filters (scenario.instance "web-1" [])
     = false.
Proof.
  split; [reflexivity|].
  refine (server_without_metadata_is_rejected scenario.filters _
            (scenario.instance "web-1" []) eq_refl _ (or_introl eq_refl)).
  discriminate.
Defined.



Lemma store_refresh_replaces_snapshot_witness :
  api.outcome (kubernetes.refresh scenario.kube_AB scenario.no_resource)
  = py.Ok (kubernetes.with_endpoint scenario.kube None)
  /\ kubernetes._endpoint (kubernetes.with_endpoint scenario.kube None) = None.
Proof.
  split; [reflexivity|].
  exact (proj2 (proj2 (proj2 (proj2 (proj2
           (store_refresh_replaces_snapshot scenario.kube_AB None
              scenario.no_resource)))
           (kubernetes.with_endpoint scenario.kube None) eq_refl))).
Defined.

Lemma inventory_refresh_replaces_list_witness :
  openstack._filters
    (openstack.with_endpoints scenario.ext
       (openstack.endpoint_list_of scenario.filters [scenario.web1; scenario.web2]))
  = scenario.filters.
Proof.
  refine (proj1 (proj2 (proj2 (proj2 (proj2
            (inventory_refresh_replaces_list scenario.ext [] scenario.in_sync))))
            _ _)).
  vm_compute. reflexivity.
Defined.

Lemma tick_call_budget_witness :
  observe.count observe.is_read
    (api.events (main.tick scenario.kube scenario.ext scenario.reordered)) = 2
  /\ observe.count api.is_patch
       (api.events (main.tick scenario.kube scenario.ext scenario.reordered)) = 1.
Proof.
  split; [vm_compute; reflexivity|].
  apply (proj2 (proj2 (proj2
           (tick_call_budget scenario.kube scenario.ext scenario.reordered)))).
  vm_compute. reflexivity.
Defined.

Lemma sync_loop_sleeps_before_each_pass_witness :
  observe.count observe.is_pass
    (api.events
       (main.sync_loop [fun w => w; fun w => w] scenario.kube scenario.ext
          scenario.reordered)) = 2.
Proof.
  pose proof (sync_loop_sleeps_before_each_pass [fun w => w; fun w => w]
                scenario.kube scenario.ext scenario.reordered) as H.
  cbv zeta in H. destruct H as [_ [_ [_ [H _]]]].
  destruct (api.outcome
              (main.sync_loop [fun w => w; fun w => w] scenario.kube
                 scenario.ext scenario.reordered)) as [objects|e] eqn:E.
  - exact (H objects eq_refl).
  - vm_compute in E. discriminate E.
Defined.



Lemma singleton_returns_first_instance_witness :
  common.__call__ nat "A" (py.Ok 1) [] = (py.Ok 1, [("A", 1)])
  /\ common.__call__ nat "A" (py.Raise py.TypeError) [("A", 1)]
     = (py.Ok 1, [("A", 1)]).
Proof.
  split; [reflexivity|].
  exact (proj1 (singleton_returns_first_instance nat "A" (py.Ok 1) [] 1
                  [("A", 1)] eq_refl) (py.Raise py.TypeError)).
Defined.


Lemma factory_by_lowercase_name_witness :
  startup.ascii_only "OpenStack" = true
  /\ startup.lower "OpenStack" = "openstack"
  /\ startup.factory "OpenStack" scenario.filters
       (scenario.provider_down None)
     = (py.Raise (py.OtherError "ConnectFailure"), scenario.provider_down None,
        [api.servers_call]).
Proof.
  split; [reflexivity|]. split; [reflexivity|].
  exact (proj2 (proj2 (factory_by_lowercase_name "OpenStack" scenario.filters
                         (scenario.provider_down None) eq_refl)) eq_refl).
Defined.


(** [main] for the Service [default/web] builds the filters of the
    deployment. *)
Example main_filters_of_web : startup.filters boot.web = scenario.filters.
Proof. reflexivity. Qed.

(** With the token mounted and the cluster answering, [main] reaches the
    loop; with the provider down it does not. *)
Example main_reaches_the_loop :
  observe.count observe.is_start
    (api.events (startup.main boot.web boot.mounted [fun w => w] scenario.in_sync))
  = 1
  /\ observe.count observe.is_start
       (api.events
          (startup.main boot.web boot.mounted [fun w => w]
             (scenario.provider_down None))) = 0.
Proof. split; vm_compute; reflexivity. Qed.
